(** * UserBehaviorTiny: the event-logging service of [app.py]

    A shallow embedding of the Flask handlers and of the SQLite store
    they drive, followed by the properties of the specification.

    Conventions of the model.
    - A Python or JSON value is a [value]; JSON numbers are the integers
      (fractional numbers are not modelled), and a string is a sequence
      of code points below 256, so that every string can be bound by
      [sqlite3] (a lone surrogate, which cannot, has no value here).
    - The store on disk is a [store]: [None] while [app.db] does not
      exist, [Some db] once both tables have been created. A request
      served while the file is missing makes [sqlite3] leave an empty
      file behind; the model has no state for a file without tables and
      keeps [None], so the start of the program after such a request is
      outside the model.
    - A connection keeps the committed tables and the tables as the
      connection sees them; an exception leaves the committed tables as
      they were at that point, which is what the next request finds.
    - The server clock is the argument [now] of [create_event]. *)

From Stdlib Require Import ZArith List String Ascii Bool Lia DecimalString.
From Stdlib Require Import Sorting.Permutation Sorting.Sorted.
Import ListNotations.

Set Warnings "-register-all".
Local Open Scope string_scope.
Local Open Scope Z_scope.

(* ================================================================== *)
(** ** Python values *)
(* ================================================================== *)

Module Py.

(** What [json.loads] builds and what [jsonify] renders. A dict is kept
    as the list of its items. *)
Inductive value : Type :=
| VNone
| VBool (b : bool)
| VInt (z : Z)
| VStr (s : string)
| VList (l : list value)
| VDict (d : list (string * value)).

(** The exceptions the handlers can raise. [BindError] is the
    [sqlite3.InterfaceError] (or [ProgrammingError], by Python version)
    of a parameter of an unsupported type. *)
Inductive exn : Type :=
| TypeError
| AttributeError
| OverflowError
| BindError
| IntegrityError
| OperationalError.

Inductive result (A : Type) : Type :=
| Ok (a : A)
| Raise (e : exn).
Arguments Ok {A} a.
Arguments Raise {A} e.

(** [bool(v)] *)
Definition truthy (v : value) : bool :=
  match v with
  | VNone => false
  | VBool b => b
  | VInt z => negb (z =? 0)
  | VStr s => negb (s =? "")%string
  | VList l => match l with [] => false | _ => true end
  | VDict d => match d with [] => false | _ => true end
  end.

(** [a or b] *)
Definition py_or (a b : value) : value := if truthy a then a else b.

(** [d.get(k)] on a dict: the value of the item with that key, [None]
    without one. *)
Fixpoint dict_get (d : list (string * value)) (k : string) : value :=
  match d with
  | [] => VNone
  | (k', v) :: rest => if (k' =? k)%string then v else dict_get rest k
  end.

(** [data.get(k)]: only a dict has the method. *)
Definition get (data : value) (k : string) : result value :=
  match data with
  | VDict d => Ok (dict_get d k)
  | _ => Raise AttributeError
  end.

(** [v == s] for a string literal [s]: no value of another type equals a
    string. *)
Definition eq_str (v : value) (s : string) : bool :=
  match v with
  | VStr t => (t =? s)%string
  | _ => false
  end.

(** [str(z)] for an integer. *)
Definition str_int (z : Z) : string := NilZero.string_of_int (Z.to_int z).

Fixpoint join (sep : string) (l : list string) : string :=
  match l with
  | [] => ""
  | [x] => x
  | x :: rest => x ++ sep ++ join sep rest
  end.

(** [repr(v)], as [str] uses it inside a list or a dict. A string is put
    between single quotes; the escapes [repr] adds inside are not
    modelled. *)
Fixpoint repr (v : value) : string :=
  match v with
  | VNone => "None"
  | VBool true => "True"
  | VBool false => "False"
  | VInt z => str_int z
  | VStr s => "'" ++ s ++ "'"
  | VList l => "[" ++ join ", " (map repr l) ++ "]"
  | VDict d =>
      "{" ++ join ", " (map (fun kv => "'" ++ fst kv ++ "': " ++ repr (snd kv)) d) ++ "}"
  end.

(** [str(v)] *)
Definition str (v : value) : string :=
  match v with
  | VStr s => s
  | _ => repr v
  end.

(** [c.isspace()] for a code point below 256: tab to carriage return,
    the four separators 28..31, the space, NEL and the no-break space. *)
Definition isspace (c : ascii) : bool :=
  let n := N_of_ascii c in
  ((9 <=? n) && (n <=? 13) || (28 <=? n) && (n <=? 32) || (n =? 133) || (n =? 160))%N.

Fixpoint lstrip (s : string) : string :=
  match s with
  | EmptyString => EmptyString
  | String c rest => if isspace c then lstrip rest else s
  end.

(** [rstrip]: the string without its trailing whitespace. *)
Fixpoint rstrip (s : string) : string :=
  match s with
  | EmptyString => EmptyString
  | String c rest =>
      match rstrip rest with
      | EmptyString => if isspace c then EmptyString else String c EmptyString
      | r => String c r
      end
  end.

(** [s.strip()] *)
Definition strip (s : string) : string := rstrip (lstrip s).

End Py.
Export Py.

(* ================================================================== *)
(** ** The SQLite store *)
(* ================================================================== *)

Module Sqlite.

(** The storage classes the program meets. *)
Inductive sqlval : Type :=
| SNull
| SInteger (z : Z)
| SText (s : string).

(** How [sqlite3] binds a Python value to a [?]: [None] as NULL, a bool
    as 0 or 1, an int when it fits 64 bits, a str as text; a list or a
    dict is refused. *)
Definition adapt (v : value) : result sqlval :=
  match v with
  | VNone => Ok SNull
  | VBool b => Ok (SInteger (if b then 1 else 0))
  | VInt z =>
      if (- 2 ^ 63 <=? z) && (z <? 2 ^ 63) then Ok (SInteger z)
      else Raise OverflowError
  | VStr s => Ok (SText s)
  | VList _ | VDict _ => Raise BindError
  end.

(** TEXT affinity: a number is turned into its text form, in a TEXT
    column before it is stored and in a comparison with such a column. *)
Definition text_affinity (v : sqlval) : sqlval :=
  match v with
  | SInteger z => SText (str_int z)
  | _ => v
  end.

(** [col = v] for a TEXT column holding [col]; NULL equals nothing. *)
Definition text_col_eq (col : string) (v : sqlval) : bool :=
  match text_affinity v with
  | SText s => (col =? s)%string
  | _ => false
  end.

(** A row of [ui_elements]. *)
Record ui_element : Type := mk_ui_element {
  ue_id : Z;
  ue_key : string;
  ue_type : string;
  ue_label : string
}.

(** A row of [events]; [payload] is the one nullable column. *)
Record event : Type := mk_event {
  ev_id : Z;
  ev_event_type : string;
  ev_ui_element_id : Z;
  ev_payload : option string;
  ev_created_at : Z
}.

(** The two tables, rows in insertion order, each with the counter
    AUTOINCREMENT keeps in [sqlite_sequence]: the largest id ever given
    out in that table. *)
Record database : Type := mk_database {
  ui_elements : list ui_element;
  ui_seq : Z;
  events : list event;
  ev_seq : Z
}.

Definition empty_db : database := mk_database [] 0 [] 0.

(** [app.db]: absent, or holding the two tables. *)
Definition store : Type := option database.

(** [row_factory] of a connection: [None] (rows are tuples) or
    [sqlite3.Row]. *)
Inductive factory : Type :=
| TupleRows
| RowObjects.

(** A fetched row, made by the factory of its connection; [row_data] is
    the content of its columns, typed by the query. *)
Record row (A : Type) : Type := mk_row {
  row_kind : factory;
  row_data : A
}.
Arguments mk_row {A} _ _.
Arguments row_kind {A} _.
Arguments row_data {A} _.

(** [r["name"]], the column being given by its projection: a
    [sqlite3.Row] can be indexed by a column name, a tuple cannot. *)
Definition row_getitem {A B : Type} (r : row A) (col : A -> B) : result B :=
  match row_kind r with
  | RowObjects => Ok (col (row_data r))
  | TupleRows => Raise TypeError
  end.

(** [dict(r)], [items] listing the columns of the query by name: a
    [sqlite3.Row] has keys, a tuple of column values is no sequence of
    pairs. *)
Definition dict_of_row {A : Type} (items : A -> list (string * value)) (r : row A)
  : result value :=
  match row_kind r with
  | RowObjects => Ok (VDict (items (row_data r)))
  | TupleRows => Raise TypeError
  end.

(** A connection. [durable] is the committed content of the file and
    [view] what the statements of this connection read and write;
    [foreign_keys] is the state of [PRAGMA foreign_keys]. *)
Record conn : Type := mk_conn {
  durable : store;
  view : store;
  row_factory : factory;
  foreign_keys : bool;
  in_txn : bool;
  last_rowid : Z
}.

(** [sqlite3.connect(DB_PATH)]: tuples for rows, foreign keys not
    enforced. *)
Definition connect (st : store) : conn := mk_conn st st TupleRows false false 0.

(** A statement run on a connection: a value or an exception, and the
    connection afterwards. *)
Definition M (A : Type) : Type := conn -> result A * conn.

Definition ret {A} (a : A) : M A := fun c => (Ok a, c).

Definition bind {A B} (m : M A) (k : A -> M B) : M B :=
  fun c =>
    match m c with
    | (Ok a, c') => k a c'
    | (Raise e, c') => (Raise e, c')
    end.

Definition lift {A} (r : result A) : M A := fun c => (r, c).

Definition throw {A} (e : exn) : M A := lift (Raise e).

Definition run {A} (m : M A) (c : conn) : result A * conn := m c.

Definition in_list (s : string) (l : list string) : bool :=
  existsb (fun t => (s =? t)%string) l.

(** The id AUTOINCREMENT gives a new row: one more than the largest id
    the table holds or has ever held. Ids are not bounded here: a table
    whose counter has reached 2^63 - 1, where SQLite refuses every
    insert as a full database, is outside the model, like a full disk. *)
Definition next_rowid (ids : list Z) (seq : Z) : Z :=
  Z.max seq (fold_right Z.max 0 ids) + 1.

Definition with_view (c : conn) (d : database) (rowid : Z) : conn :=
  mk_conn (durable c) (Some d) (row_factory c) (foreign_keys c) true rowid.

(** The two [CREATE TABLE IF NOT EXISTS] statements. Outside a
    transaction a schema change is committed as it is made. *)
Definition execute_create_tables : M unit := fun c =>
  let v := match view c with
           | None => Some empty_db
           | Some d => Some d
           end in
  (Ok tt,
   mk_conn (if in_txn c then durable c else v) v
           (row_factory c) (foreign_keys c) (in_txn c) (last_rowid c)).

(** [SELECT COUNT( * ) AS c FROM ui_elements], then [fetchone()]. *)
Definition select_count_ui_elements : M (row Z) := fun c =>
  match view c with
  | None => (Raise OperationalError, c)
  | Some d => (Ok (mk_row (row_factory c) (Z.of_nat (List.length (ui_elements d)))), c)
  end.

(** [INSERT INTO ui_elements (key, type, label) VALUES (?, ?, ?)] with
    the CHECK on [type] and the UNIQUE constraint on [key]. *)
Definition insert_ui_element (p : string * string * string) : M unit := fun c =>
  let '(key, type, label) := p in
  match view c with
  | None => (Raise OperationalError, c)
  | Some d =>
      if negb (in_list type ["button"; "text_input"]) then (Raise IntegrityError, c)
      else if existsb (fun u => (ue_key u =? key)%string) (ui_elements d)
      then (Raise IntegrityError, c)
      else
        let i := next_rowid (map ue_id (ui_elements d)) (ui_seq d) in
        (Ok tt,
         with_view c
           (mk_database (ui_elements d ++ [mk_ui_element i key type label]) i
                        (events d) (ev_seq d)) i)
  end.

(** [cur.executemany(sql, rows)]: the statement once per row, in order. *)
Fixpoint executemany {A} (stmt : A -> M unit) (rows : list A) : M unit :=
  match rows with
  | [] => ret tt
  | r :: rest => bind (stmt r) (fun _ => executemany stmt rest)
  end.

(** [db.commit()] *)
Definition commit : M unit := fun c =>
  (Ok tt,
   mk_conn (view c) (view c) (row_factory c) (foreign_keys c) false (last_rowid c)).

(** Insertion of a row by ascending [id], for [ORDER BY id]. *)
Fixpoint insert_by_id (u : ui_element) (l : list ui_element) : list ui_element :=
  match l with
  | [] => [u]
  | v :: rest => if ue_id u <=? ue_id v then u :: l else v :: insert_by_id u rest
  end.

Definition order_by_id (l : list ui_element) : list ui_element :=
  fold_right insert_by_id [] l.

(** [SELECT id, key, type, label FROM ui_elements ORDER BY id], then
    [fetchall()]. *)
Definition select_ui_elements : M (list (row ui_element)) := fun c =>
  match view c with
  | None => (Raise OperationalError, c)
  | Some d => (Ok (map (mk_row (row_factory c)) (order_by_id (ui_elements d))), c)
  end.

(** The rows of [ui_elements] whose key equals the bound value. *)
Definition rows_with_key (d : database) (k : sqlval) : list ui_element :=
  filter (fun u => text_col_eq (ue_key u) k) (ui_elements d).

(** [SELECT id FROM ui_elements WHERE key = ?], then [fetchone()]. The
    statement is prepared, which needs the table, before the key is
    bound. *)
Definition select_id_by_key (element_key : value) : M (option (row ui_element)) :=
  fun c =>
    match view c with
    | None => (Raise OperationalError, c)
    | Some d =>
        match adapt element_key with
        | Raise e => (Raise e, c)
        | Ok k => (Ok (option_map (mk_row (row_factory c)) (hd_error (rows_with_key d k))), c)
        end
    end.

(** What the TEXT column [payload] keeps of a bound value. *)
Definition payload_column (v : sqlval) : option string :=
  match text_affinity v with
  | SText s => Some s
  | _ => None
  end.

(** [INSERT INTO events (event_type, ui_element_id, payload, created_at)
    VALUES (?,?,?,?)]. [event_type] and [payload] are bound from the
    request; the id and the time are integers made by the server. The
    statement checks NOT NULL and the CHECK on [event_type], and the
    foreign key when the connection enforces foreign keys. It is
    prepared, which needs the table, before its values are bound. *)
Definition insert_event (event_type : value) (ui_element_id : Z) (payload : value)
    (created_at : Z) : M unit := fun c =>
  match view c with
  | None => (Raise OperationalError, c)
  | Some d =>
  match adapt event_type with
  | Raise e => (Raise e, c)
  | Ok et =>
  match adapt payload with
  | Raise e => (Raise e, c)
  | Ok p =>
      match text_affinity et with
      | SText t =>
          if negb (in_list t ["click"; "text_submit"]) then (Raise IntegrityError, c)
          else if foreign_keys c
                  && negb (existsb (fun u => ue_id u =? ui_element_id) (ui_elements d))
          then (Raise IntegrityError, c)
          else
            let i := next_rowid (map ev_id (events d)) (ev_seq d) in
            (Ok tt,
             with_view c
               (mk_database (ui_elements d) (ui_seq d)
                  (events d ++ [mk_event i t ui_element_id (payload_column p) created_at])
                  i) i)
      | _ => (Raise IntegrityError, c)
      end
  end end end.

(** [SELECT last_insert_rowid() AS id], then [fetchone()]. *)
Definition select_last_insert_rowid : M (row Z) := fun c =>
  (Ok (mk_row (row_factory c) (last_rowid c)), c).

(** The rows of [events e JOIN ui_elements u ON e.ui_element_id = u.id
    WHERE e.id = ?]. *)
Definition joined_rows (d : database) (evt_id : Z) : list (event * ui_element) :=
  flat_map
    (fun e => map (pair e) (filter (fun u => ev_ui_element_id e =? ue_id u) (ui_elements d)))
    (filter (fun e => ev_id e =? evt_id) (events d)).

(** The read-back query of [create_event], then [fetchone()]. *)
Definition select_event_joined (evt_id : Z) : M (option (row (event * ui_element))) :=
  fun c =>
    match view c with
    | None => (Raise OperationalError, c)
    | Some d => (Ok (option_map (mk_row (row_factory c)) (hd_error (joined_rows d evt_id))), c)
    end.

End Sqlite.
Export Sqlite.

Declare Scope sql_scope.
Delimit Scope sql_scope with sql.
Notation "x <- m ;; k" := (bind m (fun x => k))
  (at level 100, m at next level, right associativity) : sql_scope.
Notation "m ;;; k" := (bind m (fun _ => k))
  (at level 100, right associativity) : sql_scope.
Local Open Scope sql_scope.

Notation "'let?' x ':=' r 'in' k" :=
  (match r with
   | Ok x => k
   | Raise e => Raise e
   end)
  (at level 10, x name, r at level 100, k at level 200, only parsing).

(* ================================================================== *)
(** ** The application *)
(* ================================================================== *)

Module App.

(** What a request ends in: [jsonify(body), status], the static page, or
    an exception no handler catches (a 500). *)
Inductive response : Type :=
| Json (status : Z) (body : value)
| Html
| ServerError (e : exn).

(** [get_db()]: the connection of the request, with [sqlite3.Row] as its
    row factory. *)
Definition get_db (st : store) : conn :=
  let c := connect st in
  mk_conn (durable c) (view c) RowObjects (foreign_keys c) (in_txn c) (last_rowid c).

(** A handler run on the connection of its request; the connection is
    closed afterwards, which drops what was not committed. *)
Definition respond (m : M response) (c : conn) : response * store :=
  match run m c with
  | (Ok r, c') => (r, durable c')
  | (Raise e, c') => (ServerError e, durable c')
  end.

(** The rows [init_db] seeds. *)
Definition seed : list (string * string * string) :=
  [ ("btn_red", "button", "Red Button");
    ("btn_blue", "button", "Blue Button");
    ("txt_note", "text_input", "Note");
    ("txt_idea", "text_input", "Idea") ].

(** The statements of [init_db], on its connection. *)
Definition init_db_on : M unit :=
  execute_create_tables ;;;
  r <- select_count_ui_elements ;;
  c <- lift (row_getitem r (fun n => n)) ;;
  (if c =? 0 then executemany insert_ui_element seed else ret tt) ;;;
  commit.

(** [init_db()]: it opens its own connection with [sqlite3.connect]. *)
Definition init_db (st : store) : result unit * store :=
  match run init_db_on (connect st) with
  | (r, c) => (r, durable c)
  end.

(** The start of the module: [if not Path(DB_PATH).exists(): init_db()]. *)
Definition startup (st : store) : result unit * store :=
  match st with
  | None => init_db st
  | Some _ => (Ok tt, st)
  end.

Fixpoint map_result {A B} (f : A -> result B) (l : list A) : result (list B) :=
  match l with
  | [] => Ok []
  | a :: rest =>
      let? b := f a in
      let? bs := map_result f rest in
      Ok (b :: bs)
  end.

(** The columns of [SELECT id, key, type, label]. *)
Definition element_items (u : ui_element) : list (string * value) :=
  [ ("id", VInt (ue_id u)); ("key", VStr (ue_key u));
    ("type", VStr (ue_type u)); ("label", VStr (ue_label u)) ].

(** [GET /elements] *)
Definition list_elements (st : store) : response * store :=
  respond
    (rows <- select_ui_elements ;;
     ds <- lift (map_result (dict_of_row element_items) rows) ;;
     ret (Json 200 (VList ds)))
    (get_db st).

Definition payload_value (p : option string) : value :=
  match p with
  | Some s => VStr s
  | None => VNone
  end.

(** The columns of the read-back query of [create_event]. *)
Definition event_items (eu : event * ui_element) : list (string * value) :=
  let (e, u) := eu in
  [ ("id", VInt (ev_id e)); ("event_type", VStr (ev_event_type e));
    ("payload", payload_value (ev_payload e)); ("created_at", VInt (ev_created_at e));
    ("element_key", VStr (ue_key u)); ("element_label", VStr (ue_label u));
    ("element_type", VStr (ue_type u)) ].

Definition error (msg : string) : value := VDict [("error", VStr msg)].

(** [a and b] *)
Definition py_and (a b : value) : value := if truthy a then b else a.

(** Lines 84 to 99 of [create_event], the [createEvent] of the store:
    insert, commit, and read the row back with its element. [dict(None)]
    is a TypeError. *)
Definition createEvent (event_type : value) (ui_element_id : Z) (payload : value)
    (now : Z) : M response :=
  insert_event event_type ui_element_id payload now ;;;
  commit ;;;
  r <- select_last_insert_rowid ;;
  evt_id <- lift (row_getitem r (fun i => i)) ;;
  created <- select_event_joined evt_id ;;
  match created with
  | None => throw TypeError
  | Some cr =>
      d <- lift (dict_of_row event_items cr) ;;
      ret (Json 201 d)
  end.

(** [POST /events]; [body] is what [request.get_json(silent=True)]
    returns, [None] for a body that is absent or does not parse, and
    [now] is [int(time.time())]. *)
Definition create_event (now : Z) (body : value) (st : store) : response * store :=
  let data := py_or body (VDict []) in
  match get data "element_key" with
  | Raise e => (ServerError e, st)
  | Ok element_key =>
  match get data "event_type" with
  | Raise e => (ServerError e, st)
  | Ok event_type =>
  match get data "payload" with
  | Raise e => (ServerError e, st)
  | Ok payload =>
      if negb (eq_str event_type "click" || eq_str event_type "text_submit")
      then (Json 400 (error "invalid event_type"), st)
      else if negb (truthy element_key)
      then (Json 400 (error "element_key required"), st)
      else if eq_str event_type "text_submit"
              && negb (truthy (py_and payload (VStr (strip (str payload)))))
      then (Json 400 (error "payload required for text_submit"), st)
      else
        respond
          (row <- select_id_by_key element_key ;;
           match row with
           | None => ret (Json 400 (error "unknown element_key"))
           | Some r =>
               id <- lift (row_getitem r ue_id) ;;
               createEvent event_type id payload now
           end)
          (get_db st)
  end end end.

(** [GET /]: the static page. *)
Definition index (st : store) : response * store := (Html, st).

End App.
Export App.

(* ================================================================== *)
(** ** The vocabulary of the properties *)
(* ================================================================== *)

(** The tables as the seeding statement of [init_db] fills them. *)
Definition seeded_db : database :=
  mk_database
    [ mk_ui_element 1 "btn_red" "button" "Red Button";
      mk_ui_element 2 "btn_blue" "button" "Blue Button";
      mk_ui_element 3 "txt_note" "text_input" "Note";
      mk_ui_element 4 "txt_idea" "text_input" "Idea" ]
    4 [] 0.

(** The events table after one more row. *)
Definition add_event (d : database) (e : event) : database :=
  mk_database (ui_elements d) (ui_seq d) (events d ++ [e]) (ev_id e).

(** The row [insert_event] makes. *)
Definition new_event (d : database) (event_type : string) (ui_element_id : Z)
    (payload : option string) (created_at : Z) : event :=
  mk_event (next_rowid (map ev_id (events d)) (ev_seq d))
           event_type ui_element_id payload created_at.

(** The constraints PRIMARY KEY and UNIQUE keep on [ui_elements]. *)
Definition schema_ok (d : database) : Prop :=
  NoDup (map ue_id (ui_elements d)) /\ NoDup (map ue_key (ui_elements d)).

Definition event_types : list string := ["click"; "text_submit"].

(** The four validations, in the order the specification lists them. *)
Inductive check : Type :=
| CheckEventType
| CheckElementKey
| CheckPayload
| CheckElementExists.

Definition message (c : check) : string :=
  match c with
  | CheckEventType => "invalid event_type"
  | CheckElementKey => "element_key required"
  | CheckPayload => "payload required for text_submit"
  | CheckElementExists => "unknown element_key"
  end.

(** A payload that is missing, empty, or blank once trimmed. *)
Definition blank (payload : value) : bool :=
  negb (truthy payload) || (strip (str payload) =? "")%string.

(** Whether the request with fields [d] fails a validation, each one
    taken by itself: the event type is outside the enumeration; the
    element key is missing or empty; the event is a text_submit with a
    blank payload; the lookup of the element key finds no row. *)
Definition fails (db : database) (d : list (string * value)) (c : check) : bool :=
  let element_key := dict_get d "element_key" in
  let event_type := dict_get d "event_type" in
  let payload := dict_get d "payload" in
  match c with
  | CheckEventType => negb (existsb (eq_str event_type) event_types)
  | CheckElementKey => negb (truthy element_key)
  | CheckPayload => eq_str event_type "text_submit" && blank payload
  | CheckElementExists =>
      match adapt element_key with
      | Ok k => match rows_with_key db k with [] => true | _ :: _ => false end
      | Raise _ => false
      end
  end.

Definition all_checks : list check :=
  [CheckEventType; CheckElementKey; CheckPayload; CheckElementExists].

(** The validations a request fails, earliest first. *)
Definition failed_checks (db : database) (d : list (string * value)) : list check :=
  filter (fails db d) all_checks.

(** The one way [POST /events] writes: the request passed the
    validations, its key found the row [u], and the event [e] was
    appended and read back. *)
Inductive accepted (now : Z) (body : value) (db : database) : response * store -> Prop :=
| Accepted (d : list (string * value)) (et : string) (k p : sqlval) (u u' : ui_element) :
    py_or body (VDict []) = VDict d ->
    dict_get d "event_type" = VStr et ->
    in_list et event_types = true ->
    truthy (dict_get d "element_key") = true ->
    adapt (dict_get d "element_key") = Ok k ->
    hd_error (rows_with_key db k) = Some u ->
    (et = "text_submit" -> blank (dict_get d "payload") = false) ->
    adapt (dict_get d "payload") = Ok p ->
    hd_error (filter (fun v => ue_id u =? ue_id v) (ui_elements db)) = Some u' ->
    accepted now body db
      (Json 201 (VDict (event_items (new_event db et (ue_id u) (payload_column p) now, u'))),
       Some (add_event db (new_event db et (ue_id u) (payload_column p) now))).

(** The ways [POST /events] leaves the store as it was: a validation
    fails and the request is answered with the message of the earliest
    one, or an exception ends the request before anything is written. *)
Inductive refused (body : value) (db : database) : response * store -> Prop :=
| Rejected (d : list (string * value)) (c : check) (rest : list check) :
    py_or body (VDict []) = VDict d ->
    failed_checks db d = c :: rest ->
    refused body db (Json 400 (error (message c)), Some db)
| Crashed (x : exn) :
    refused body db (ServerError x, Some db).

(** A payload as the interface types it: absent (or null), or a string. *)
Definition optional_string (v : value) : Prop :=
  v = VNone \/ exists p, v = VStr p.

Ltac concrete_schema :=
  split; repeat constructor; cbn; intuition (discriminate || lia).

(** Every event refers to a row of [ui_elements]. *)
Definition references_ok (d : database) : Prop :=
  forall e, In e (events d) -> exists u, In u (ui_elements d) /\ ev_ui_element_id e = ue_id u.

(** What the program does to the store: the three routes and [init_db]. *)
Inductive operation : Type :=
| OpListElements
| OpCreateEvent (now : Z) (body : value)
| OpIndex
| OpInitDb.

Definition run_operation (op : operation) (st : store) : store :=
  match op with
  | OpListElements => snd (list_elements st)
  | OpCreateEvent now body => snd (create_event now body st)
  | OpIndex => snd (index st)
  | OpInitDb => snd (init_db st)
  end.

Definition ui_rows (st : store) : list ui_element :=
  match st with
  | Some d => ui_elements d
  | None => []
  end.

Definition event_rows (st : store) : list event :=
  match st with
  | Some d => events d
  | None => []
  end.

(** The text the [payload] column keeps of a number: a bool is bound as
    0 or 1 and an integer as itself, and the column has TEXT affinity. *)
Definition text_form (v : value) : option string :=
  match adapt v with
  | Ok (SInteger z) => Some (str_int z)
  | _ => None
  end.

(** A string made of whitespace only. *)
Fixpoint all_space (s : string) : bool :=
  match s with
  | EmptyString => true
  | String c rest => isspace c && all_space rest
  end.

(** An answer 201. *)
Definition created (r : response) : bool :=
  match r with
  | Json 201 _ => true
  | _ => false
  end.

(** The order of [ORDER BY id]. *)
Definition id_le (u v : ui_element) : Prop := ue_id u <= ue_id v.

(** An integer SQLite can hold. *)
Definition int64 (z : Z) : Prop := - 2 ^ 63 <= z < 2 ^ 63.

(** What the schema and AUTOINCREMENT keep of the [events] table: ids
    are all different and none is above the counter, every event type is
    of the enumeration, and every event refers to an element. *)
Definition store_ok (d : database) : Prop :=
  NoDup (map ev_id (events d))
  /\ Forall (fun e => ev_id e <= ev_seq d) (events d)
  /\ Forall (fun e => in_list (ev_event_type e) event_types = true) (events d)
  /\ references_ok d.

(** Operations one after the other. *)
Definition run_operations (ops : list operation) (st : store) : store :=
  fold_left (fun s op => run_operation op s) ops st.

(** A store without a row in either table. *)
Definition no_rows (st : store) : Prop := ui_rows st = [] /\ event_rows st = [].

(* ================================================================== *)
(** ** The model at work *)
(* ================================================================== *)

Example strip_ex : strip "  a b	 " = "a b".
Proof. reflexivity. Qed.

Example str_ex : str (VList [VInt (-12); VStr "x"; VBool true]) = "[-12, 'x', True]".
Proof. reflexivity. Qed.

Example seeded_db_is_seeding :
  run (execute_create_tables ;;; executemany insert_ui_element seed ;;; commit) (connect None)
  = (Ok tt, mk_conn (Some seeded_db) (Some seeded_db) TupleRows false false 4).
Proof. reflexivity. Qed.

(* ================================================================== *)
(** ** Facts about lists, ids and strings *)
(* ================================================================== *)

Section Unique.

Context {A K : Type} (f : A -> K) (eqb : K -> K -> bool).
Hypothesis eqb_eq : forall x y, eqb x y = true <-> x = y.

(** A selection on a column whose values are all different, that does
    not hold the wanted value, is empty. *)
Lemma filter_absent (l : list A) (k : K) :
  ~ In k (map f l) -> filter (fun v => eqb (f v) k) l = [].
Proof.
  induction l as [|a l IH]; intro Hk; [reflexivity|].
  cbn [filter].
  destruct (eqb (f a) k) eqn:E.
  - exfalso. apply Hk. left. now apply eqb_eq.
  - apply IH. intro Hin. apply Hk. now right.
Qed.

(** A selection by the value of a row on such a column is that row. *)
Lemma filter_unique (l : list A) (u : A) :
  NoDup (map f l) -> In u l -> filter (fun v => eqb (f v) (f u)) l = [u].
Proof.
  induction l as [|a l IH]; intros Hnd Hin; [contradiction|].
  cbn [map] in Hnd. apply NoDup_cons_iff in Hnd as [Hfresh Hnd].
  cbn [filter].
  destruct Hin as [->|Hin].
  - replace (eqb (f u) (f u)) with true by (symmetry; now apply eqb_eq).
    now rewrite filter_absent.
  - destruct (eqb (f a) (f u)) eqn:E.
    + exfalso. apply Hfresh. apply eqb_eq in E. rewrite E. now apply in_map.
    + now apply IH.
Qed.

End Unique.

Lemma fold_max_ge (ids : list Z) (x : Z) : In x ids -> x <= fold_right Z.max 0 ids.
Proof.
  induction ids as [|y ids IH]; [contradiction|].
  intros [->|Hin]; cbn [fold_right]; [lia|]. specialize (IH Hin). lia.
Qed.

(** The id AUTOINCREMENT gives out is above every id of the table. *)
Lemma next_rowid_fresh (ids : list Z) (seq x : Z) :
  In x ids -> x < next_rowid ids seq.
Proof.
  intro Hin. apply fold_max_ge in Hin. unfold next_rowid. lia.
Qed.

Lemma next_rowid_not_in (ids : list Z) (seq : Z) : ~ In (next_rowid ids seq) ids.
Proof.
  intro Hin. apply (next_rowid_fresh ids seq) in Hin. lia.
Qed.

(** Selecting the new row by its id finds it and nothing else. *)
Lemma select_new_event (d : database) (e : event) :
  ev_id e = next_rowid (map ev_id (events d)) (ev_seq d) ->
  filter (fun x => ev_id x =? ev_id e) (events d ++ [e]) = [e].
Proof.
  intro Hid. rewrite filter_app. cbn [filter]. rewrite Z.eqb_refl.
  rewrite (filter_absent ev_id Z.eqb Z.eqb_eq); [reflexivity|].
  rewrite Hid. apply next_rowid_not_in.
Qed.

Lemma joined_new_event (d : database) (e : event) :
  ev_id e = next_rowid (map ev_id (events d)) (ev_seq d) ->
  joined_rows (add_event d e) (ev_id e)
  = map (pair e) (filter (fun u => ev_ui_element_id e =? ue_id u) (ui_elements d)).
Proof.
  intro Hid. unfold joined_rows, add_event. cbn [events ui_elements].
  rewrite (select_new_event d e Hid). cbn [flat_map]. now rewrite app_nil_r.
Qed.

Lemma rows_with_key_unique (d : database) (u : ui_element) :
  schema_ok d -> In u (ui_elements d) -> rows_with_key d (SText (ue_key u)) = [u].
Proof.
  intros [_ Hk] Hin. unfold rows_with_key, text_col_eq. cbn [text_affinity].
  now apply (filter_unique ue_key String.eqb String.eqb_eq).
Qed.

Lemma rows_with_id_unique (d : database) (u : ui_element) :
  schema_ok d -> In u (ui_elements d) ->
  filter (fun v => ue_id u =? ue_id v) (ui_elements d) = [u].
Proof.
  intros [Hi _] Hin.
  transitivity (filter (fun v => ue_id v =? ue_id u) (ui_elements d)).
  - apply filter_ext. intro v. apply Z.eqb_sym.
  - now apply (filter_unique ue_id Z.eqb Z.eqb_eq).
Qed.

Lemma rows_with_key_absent (d : database) (k : string) :
  ~ In k (map ue_key (ui_elements d)) -> rows_with_key d (SText k) = [].
Proof.
  intro Hk. unfold rows_with_key, text_col_eq. cbn [text_affinity].
  now apply (filter_absent ue_key String.eqb String.eqb_eq).
Qed.

(* ================================================================== *)
(** ** The store-level [createEvent] *)
(* ================================================================== *)

Lemma eq_str_enum (v : value) :
  eq_str v "click" || eq_str v "text_submit" = true ->
  exists et, v = VStr et /\ in_list et event_types = true.
Proof.
  destruct v as [| | |s| |]; cbn [eq_str orb]; try discriminate.
  intro H. exists s. split; [reflexivity|].
  unfold in_list, event_types. cbn [existsb]. now rewrite orb_false_r.
Qed.

Lemma in_event_types (et : string) :
  in_list et event_types = true <-> et = "click" \/ et = "text_submit".
Proof.
  unfold in_list, event_types. cbn [existsb]. rewrite orb_false_r, orb_true_iff.
  now rewrite !String.eqb_eq.
Qed.

(** On a connection that does not enforce foreign keys, [createEvent]
    inserts and commits the row whatever element id it is given; the
    read-back then answers 201 when an element has that id and raises
    when none has. *)
Lemma createEvent_run (c : conn) (d : database) (et : string) (eid : Z)
    (payload : value) (p : sqlval) (now : Z) :
  view c = Some d -> row_factory c = RowObjects -> foreign_keys c = false ->
  in_list et event_types = true ->
  adapt payload = Ok p ->
  run (createEvent (VStr et) eid payload now) c
  = (match hd_error (filter (fun u => eid =? ue_id u) (ui_elements d)) with
     | Some u =>
         Ok (Json 201 (VDict (event_items (new_event d et eid (payload_column p) now, u))))
     | None => Raise TypeError
     end,
     mk_conn (Some (add_event d (new_event d et eid (payload_column p) now)))
             (Some (add_event d (new_event d et eid (payload_column p) now)))
             RowObjects false false
             (ev_id (new_event d et eid (payload_column p) now))).
Proof.
  destruct c as [du vw rf fk tx lr]. cbn [view row_factory foreign_keys].
  intros -> -> -> Het Hp. unfold event_types in Het.
  unfold createEvent, run, bind, insert_event.
  cbn [adapt text_affinity view foreign_keys]. rewrite Hp, Het.
  cbn [negb andb].
  set (e := new_event d et eid (payload_column p) now).
  change (mk_database _ _ _ _) with (add_event d e).
  change (next_rowid (map ev_id (events d)) (ev_seq d)) with (ev_id e).
  unfold commit, with_view, select_last_insert_rowid, lift, row_getitem, select_event_joined.
  cbn [view row_factory last_rowid row_kind row_data foreign_keys].
  rewrite (joined_new_event d e eq_refl).
  cbn [ev_ui_element_id e new_event].
  destruct (filter (fun u => eid =? ue_id u) (ui_elements d)) as [|u us]; reflexivity.
Qed.

(** A payload [sqlite3] cannot bind stops [createEvent] before anything
    is written. *)
Lemma createEvent_unbound (c : conn) (d : database) (et : string) (eid : Z)
    (payload : value) (x : exn) (now : Z) :
  view c = Some d ->
  adapt payload = Raise x ->
  run (createEvent (VStr et) eid payload now) c = (Raise x, c).
Proof.
  intros Hv Hp. unfold createEvent, run, bind, insert_event.
  cbn [adapt]. now rewrite Hv, Hp.
Qed.

(** With foreign keys enforced the same insert is refused. *)
Lemma insert_event_foreign_key (c : conn) (d : database) (et : string) (eid : Z)
    (payload : value) (p : sqlval) (now : Z) :
  view c = Some d -> foreign_keys c = true ->
  in_list et event_types = true -> adapt payload = Ok p ->
  ~ In eid (map ue_id (ui_elements d)) ->
  insert_event (VStr et) eid payload now c = (Raise IntegrityError, c).
Proof.
  intros Hv Hfk Het Hp Hno. unfold insert_event. cbn [adapt text_affinity].
  unfold event_types in Het. rewrite Hp, Hv, Het, Hfk. cbn [negb andb].
  replace (existsb (fun u => ue_id u =? eid) (ui_elements d)) with false; [reflexivity|].
  symmetry. apply not_true_is_false. intro Hex.
  apply existsb_exists in Hex as (u & Hin & Hu). apply Z.eqb_eq in Hu.
  apply Hno. rewrite <- Hu. now apply in_map.
Qed.

(* ================================================================== *)
(** ** The validations of [POST /events] *)
(* ================================================================== *)

Lemma py_and_blank (payload : value) :
  truthy (py_and payload (VStr (strip (str payload)))) = negb (blank payload).
Proof.
  unfold py_and, blank. destruct (truthy payload) eqn:E; cbn [negb orb truthy].
  - reflexivity.
  - now rewrite E.
Qed.

Lemma enum_orb (v : value) :
  existsb (eq_str v) event_types = eq_str v "click" || eq_str v "text_submit".
Proof. unfold event_types. cbn [existsb]. now rewrite orb_false_r. Qed.

(** A request that fails a validation is answered with the message of
    the earliest one it fails, and the store is left as it was. *)
Lemma create_event_first_failure (now : Z) (body : value) (d : list (string * value))
    (db : database) (c : check) (rest : list check) :
  py_or body (VDict []) = VDict d ->
  failed_checks db d = c :: rest ->
  create_event now body (Some db) = (Json 400 (error (message c)), Some db).
Proof.
  intros Hd Hf. unfold create_event. rewrite Hd. cbn [get].
  unfold failed_checks, all_checks in Hf. cbn [filter] in Hf.
  destruct (fails db d CheckEventType) eqn:E1; cbn [fails] in E1;
    rewrite enum_orb in E1; rewrite E1.
  { injection Hf as <- _. reflexivity. }
  destruct (fails db d CheckElementKey) eqn:E2; cbn [fails] in E2; rewrite E2.
  { injection Hf as <- _. reflexivity. }
  destruct (fails db d CheckPayload) eqn:E3; cbn [fails] in E3;
    rewrite py_and_blank, negb_involutive, E3.
  { injection Hf as <- _. reflexivity. }
  destruct (fails db d CheckElementExists) eqn:E4; [|discriminate].
  injection Hf as <- _. cbn [fails] in E4.
  unfold respond, run, bind, select_id_by_key, get_db, connect.
  cbn [view durable row_factory].
  destruct (adapt (dict_get d "element_key")) as [k|x]; [|discriminate].
  destruct (rows_with_key db k); [reflexivity|discriminate].
Qed.

(** A request that passes the validations, whose key finds a row and
    whose payload can be bound, inserts one event and is answered 201. *)
Lemma create_event_inserts (now : Z) (body : value) (d : list (string * value))
    (db : database) (et : string) (k p : sqlval) (u : ui_element) :
  py_or body (VDict []) = VDict d ->
  dict_get d "event_type" = VStr et -> in_list et event_types = true ->
  truthy (dict_get d "element_key") = true ->
  adapt (dict_get d "element_key") = Ok k ->
  hd_error (rows_with_key db k) = Some u ->
  (et = "text_submit" -> blank (dict_get d "payload") = false) ->
  adapt (dict_get d "payload") = Ok p ->
  exists u',
    hd_error (filter (fun v => ue_id u =? ue_id v) (ui_elements db)) = Some u' /\
    create_event now body (Some db)
    = (Json 201 (VDict (event_items (new_event db et (ue_id u) (payload_column p) now, u'))),
       Some (add_event db (new_event db et (ue_id u) (payload_column p) now))).
Proof.
  intros Hd Het Hin Hkey Hk Hrow Hblank Hp.
  assert (Hu : In u (ui_elements db)).
  { unfold rows_with_key in Hrow.
    destruct (filter _ (ui_elements db)) as [|v l] eqn:E; [discriminate|].
    injection Hrow as ->. 
    assert (In u (u :: l)) as Hi by now left. rewrite <- E in Hi.
    now apply filter_In in Hi. }
  destruct (filter (fun v => ue_id u =? ue_id v) (ui_elements db)) as [|u' l] eqn:Eid.
  { exfalso. assert (In u []) as Hi; [|contradiction].
    rewrite <- Eid. apply filter_In. split; [exact Hu|apply Z.eqb_refl]. }
  exists u'. split; [reflexivity|].
  unfold create_event. rewrite Hd. cbn [get]. rewrite Het, <- enum_orb.
  change (existsb (eq_str (VStr et)) event_types) with (in_list et event_types).
  rewrite Hin, Hkey, py_and_blank, negb_involutive. cbn [negb eq_str].
  replace ((et =? "text_submit")%string && blank (dict_get d "payload")) with false.
  2:{ destruct (String.eqb_spec et "text_submit") as [E|E]; [|reflexivity].
      now rewrite (Hblank E). }
  unfold respond, run, bind, select_id_by_key, get_db, connect.
  cbn [view durable row_factory foreign_keys in_txn last_rowid].
  rewrite Hk, Hrow. cbn [option_map]. unfold lift, row_getitem. cbn [row_kind row_data].
  pose proof (createEvent_run (mk_conn (Some db) (Some db) RowObjects false false 0)
                db et (ue_id u) (dict_get d "payload") p now
                eq_refl eq_refl eq_refl Hin Hp) as Hrun.
  unfold run in Hrun. rewrite Hrun, Eid. reflexivity.
Qed.

Lemma hd_error_nil {A} (l : list A) : hd_error l = None -> l = [].
Proof. destruct l; [reflexivity|discriminate]. Qed.

(** Every run of [create_event] on an initialised store is of one of
    these kinds. *)
Lemma create_event_cases (now : Z) (body : value) (db : database) :
  refused body db (create_event now body (Some db))
  \/ accepted now body db (create_event now body (Some db)).
Proof.
  destruct (py_or body (VDict [])) as [| | | | |d] eqn:Hd;
    try (left; unfold create_event; rewrite Hd; apply Crashed).
  assert (Hrej : forall c rest, failed_checks db d = c :: rest ->
                 refused body db (create_event now body (Some db))).
  { intros c rest Hf. rewrite (create_event_first_failure now body d db c rest Hd Hf).
    now apply (Rejected body db d c rest). }
  unfold failed_checks, all_checks in Hrej. cbn [filter] in Hrej.
  destruct (fails db d CheckEventType) eqn:E1; [left; now eapply Hrej|].
  destruct (fails db d CheckElementKey) eqn:E2; [left; now eapply Hrej|].
  destruct (fails db d CheckPayload) eqn:E3; [left; now eapply Hrej|].
  destruct (fails db d CheckElementExists) eqn:E4; [left; now eapply Hrej|].
  clear Hrej. cbn [fails] in E1, E2, E3, E4.
  apply negb_false_iff in E1, E2. rewrite enum_orb in E1.
  destruct (eq_str_enum _ E1) as (et & Het & Hin).
  assert (Hblank : et = "text_submit" -> blank (dict_get d "payload") = false).
  { intros ->. rewrite Het in E3. cbn [eq_str] in E3. now rewrite String.eqb_refl in E3. }
  assert (Hpre : forall r,
    respond
      (row <- select_id_by_key (dict_get d "element_key") ;;
       match row with
       | None => ret (Json 400 (error "unknown element_key"))
       | Some r =>
           id <- lift (row_getitem r ue_id) ;;
           createEvent (VStr et) id (dict_get d "payload") now
       end) (get_db (Some db)) = r ->
    create_event now body (Some db) = r).
  { intros r <-. unfold create_event. rewrite Hd. cbn [get].
    rewrite E1, E2, py_and_blank, negb_involutive, E3, Het. reflexivity. }
  destruct (adapt (dict_get d "element_key")) as [k|x] eqn:Hk.
  2:{ left. rewrite (Hpre _ eq_refl).
      unfold respond, run, bind, select_id_by_key. rewrite Hk. apply Crashed. }
  destruct (hd_error (rows_with_key db k)) as [u|] eqn:Hrow.
  2:{ apply hd_error_nil in Hrow. rewrite Hrow in E4. discriminate. }
  destruct (adapt (dict_get d "payload")) as [p|x] eqn:Hp.
  2:{ left. rewrite (Hpre _ eq_refl).
      unfold respond, run, bind, select_id_by_key, get_db, connect.
      cbn [view durable row_factory foreign_keys in_txn last_rowid].
      rewrite Hk, Hrow. cbn [option_map].
      unfold lift, row_getitem. cbn [row_kind row_data].
      pose proof (createEvent_unbound (mk_conn (Some db) (Some db) RowObjects false false 0)
                    db et (ue_id u) _ x now eq_refl Hp) as Hrun.
      unfold run in Hrun. rewrite Hrun. apply Crashed. }
  right.
  destruct (create_event_inserts now body d db et k p u Hd Het Hin E2 Hk Hrow Hblank Hp)
    as (u' & Hu' & ->).
  now apply (Accepted now body db d et k p u u').
Qed.

(** Without tables nothing is written either. *)
Lemma create_event_no_tables (now : Z) (body : value) :
  snd (create_event now body None) = None.
Proof.
  unfold create_event.
  destruct (get (py_or body (VDict [])) "element_key"); [|reflexivity].
  destruct (get (py_or body (VDict [])) "event_type"); [|reflexivity].
  destruct (get (py_or body (VDict [])) "payload"); [|reflexivity].
  repeat match goal with |- context [if ?b then _ else _] => destruct b; try reflexivity end.
  all: reflexivity.
Qed.

(* ================================================================== *)
(** ** Strings and payloads *)
(* ================================================================== *)

Lemma py_or_dict (d : list (string * value)) : py_or (VDict d) (VDict []) = VDict d.
Proof. destruct d; reflexivity. Qed.

(** A string that starts with a character that is no whitespace does not
    strip to nothing. *)
Lemma strip_head (c : ascii) (s : string) :
  isspace c = false -> strip (String c s) <> "".
Proof.
  intro Hc. unfold strip. cbn [lstrip]. rewrite Hc. cbn [rstrip]. rewrite Hc.
  destruct (rstrip s); discriminate.
Qed.

Lemma str_int_head (z : Z) :
  exists c s, str_int z = String c s /\ isspace c = false.
Proof.
  unfold str_int.
  destruct (Z.to_int z) as [u|u]; cbn [NilZero.string_of_int].
  - destruct u; cbn; eexists; eexists; (split; [reflexivity|reflexivity]).
  - eexists; eexists; (split; [reflexivity|reflexivity]).
Qed.

(** A string payload is blank when it strips to nothing. *)
Lemma blank_str (p : string) : blank (VStr p) = (strip p =? "")%string.
Proof.
  unfold blank. cbn [truthy str]. rewrite negb_involutive.
  destruct (String.eqb_spec p "") as [->|_]; reflexivity.
Qed.

(** A payload that is true in Python and is no string is never blank:
    its rendering starts with a digit, a sign, a letter or a bracket. *)
Lemma truthy_not_blank (v : value) :
  truthy v = true -> (forall s, v <> VStr s) -> blank v = false.
Proof.
  intros Ht Hs. unfold blank. rewrite Ht. cbn [negb orb].
  apply String.eqb_neq.
  destruct v as [|b|z|s|l|d]; cbn [truthy] in Ht; try discriminate.
  - subst b. discriminate.
  - cbn [str repr]. destruct (str_int_head z) as (c & s & -> & Hc). now apply strip_head.
  - now contradiction (Hs s).
  - cbn [str repr]. now apply strip_head.
  - cbn [str repr]. now apply strip_head.
Qed.

(* ================================================================== *)
(** ** Creating an event *)
(* ================================================================== *)

Lemma optional_string_column (v : value) :
  optional_string v ->
  exists p, adapt v = Ok p /\ payload_value (payload_column p) = v.
Proof.
  intros [->|(s & ->)]; [exists SNull|exists (SText s)]; split; reflexivity.
Qed.

(** What the lookup of a string key finds is the row with that key. *)
Lemma key_lookup (db : database) (u : ui_element) :
  schema_ok db -> In u (ui_elements db) ->
  hd_error (rows_with_key db (SText (ue_key u))) = Some u.
Proof. intros Hs Hin. now rewrite rows_with_key_unique. Qed.

Lemma key_lookup_inv (db : database) (k : string) (u : ui_element) :
  hd_error (rows_with_key db (SText k)) = Some u ->
  In u (ui_elements db) /\ ue_key u = k.
Proof.
  unfold rows_with_key. intro H.
  destruct (filter _ (ui_elements db)) as [|v l] eqn:E; [discriminate|].
  injection H as ->.
  assert (In u (u :: l)) as Hi by now left.
  rewrite <- E in Hi. apply filter_In in Hi as [Hin Hk].
  split; [exact Hin|]. unfold text_col_eq in Hk. cbn [text_affinity] in Hk.
  now apply String.eqb_eq.
Qed.

(** C1. A [POST /events] whose event_type is click or text_submit, whose
    element_key is the key of a row [u] of [ui_elements], and whose
    payload is a string that is not blank (for a text_submit) or a
    string or absent (for a click), is answered 201 with exactly the
    fields id, event_type, payload, created_at, element_key,
    element_label and element_type; the three element fields are the
    key, label and type of [u] and created_at is the server time [now]. *)
Theorem create_event_created (now : Z) (d : list (string * value)) (db : database)
    (et k : string) (u : ui_element) :
  schema_ok db ->
  dict_get d "event_type" = VStr et ->
  et = "click" \/ et = "text_submit" ->
  dict_get d "element_key" = VStr k -> k <> "" ->
  In u (ui_elements db) -> ue_key u = k ->
  optional_string (dict_get d "payload") ->
  (et = "text_submit" -> exists p, dict_get d "payload" = VStr p /\ strip p <> "") ->
  exists id,
    fst (create_event now (VDict d) (Some db))
    = Json 201
        (VDict [ ("id", VInt id); ("event_type", VStr et);
                 ("payload", dict_get d "payload"); ("created_at", VInt now);
                 ("element_key", VStr (ue_key u)); ("element_label", VStr (ue_label u));
                 ("element_type", VStr (ue_type u)) ]).
Proof.
  intros Hs Het Hin Hkey Hne Hu Hk Hopt Htext.
  destruct (optional_string_column _ Hopt) as (p & Hp & Hcol).
  assert (Hblank : et = "text_submit" -> blank (dict_get d "payload") = false).
  { intro E. destruct (Htext E) as (s & -> & Hstrip).
    rewrite blank_str. now apply String.eqb_neq. }
  assert (Hrow : hd_error (rows_with_key db (SText k)) = Some u).
  { rewrite <- Hk. now apply key_lookup. }
  destruct (create_event_inserts now (VDict d) d db et (SText k) p u
              (py_or_dict d) Het (proj2 (in_event_types et) Hin)) as (u' & Hu' & Heq).
  - rewrite Hkey. cbn [truthy]. now apply negb_true_iff, String.eqb_neq.
  - now rewrite Hkey.
  - exact Hrow.
  - exact Hblank.
  - exact Hp.
  - rewrite (rows_with_id_unique db u Hs Hu) in Hu'. injection Hu' as <-.
    rewrite Heq. cbn [fst event_items new_event ev_id ev_event_type ev_payload ev_created_at].
    rewrite Hcol. eexists. reflexivity.
Qed.

Lemma create_event_created_witness :
  exists id,
    fst (create_event 1000
           (VDict [("element_key", VStr "btn_red"); ("event_type", VStr "click")])
           (Some seeded_db))
    = Json 201
        (VDict [ ("id", VInt id); ("event_type", VStr "click");
                 ("payload", VNone); ("created_at", VInt 1000);
                 ("element_key", VStr "btn_red"); ("element_label", VStr "Red Button");
                 ("element_type", VStr "button") ]).
Proof.
  apply (create_event_created 1000
           [("element_key", VStr "btn_red"); ("event_type", VStr "click")]
           seeded_db "click" "btn_red" (mk_ui_element 1 "btn_red" "button" "Red Button")).
  - concrete_schema.
  - reflexivity.
  - left. reflexivity.
  - reflexivity.
  - discriminate.
  - left. reflexivity.
  - reflexivity.
  - left. reflexivity.
  - discriminate.
Defined.

(** C2. A [POST /events] that fails one of the four validations is
    answered 400 with the message of a validation it fails (the earliest
    one, which is [c] itself when [c] is the only one), and the store is
    left as it was: no row is inserted. *)
Theorem validation_failure_rejected (now : Z) (body : value) (d : list (string * value))
    (db : database) (c : check) :
  py_or body (VDict []) = VDict d ->
  In c (failed_checks db d) ->
  exists c0 rest,
    failed_checks db d = c0 :: rest /\
    (rest = [] -> c0 = c) /\
    create_event now body (Some db) = (Json 400 (error (message c0)), Some db).
Proof.
  intros Hd Hin.
  destruct (failed_checks db d) as [|c0 rest] eqn:Hf; [contradiction|].
  exists c0, rest. split; [reflexivity|]. split.
  - intros ->. destruct Hin as [E|[]]. exact E.
  - now apply (create_event_first_failure now body d db c0 rest).
Qed.

Lemma validation_failure_rejected_witness :
  exists c0 rest,
    failed_checks seeded_db [("element_key", VStr "nope"); ("event_type", VStr "click")]
    = c0 :: rest /\
    (rest = [] -> c0 = CheckElementExists) /\
    create_event 1000 (VDict [("element_key", VStr "nope"); ("event_type", VStr "click")])
      (Some seeded_db)
    = (Json 400 (error (message c0)), Some seeded_db).
Proof.
  apply (validation_failure_rejected 1000
           (VDict [("element_key", VStr "nope"); ("event_type", VStr "click")])
           [("element_key", VStr "nope"); ("event_type", VStr "click")]
           seeded_db CheckElementExists).
  - reflexivity.
  - left. reflexivity.
Defined.

(** The fourth validation on a string key: a click on a key no row of
    [ui_elements] has is answered "unknown element_key". *)
Lemma unknown_key_rejected (now : Z) (d : list (string * value)) (db : database)
    (k : string) :
  dict_get d "event_type" = VStr "click" ->
  dict_get d "element_key" = VStr k -> k <> "" ->
  ~ In k (map ue_key (ui_elements db)) ->
  create_event now (VDict d) (Some db) = (Json 400 (error "unknown element_key"), Some db).
Proof.
  intros Het Hkey Hne Hk.
  apply (create_event_first_failure now (VDict d) d db CheckElementExists [] (py_or_dict d)).
  unfold failed_checks, all_checks. cbn [filter fails].
  rewrite Het, Hkey. cbn [eq_str existsb event_types adapt truthy andb orb negb].
  rewrite (rows_with_key_absent db k Hk).
  destruct (String.eqb_spec k "") as [E|_]; [contradiction|reflexivity].
Qed.

(** C4. The validations of [POST /events] are applied in the order
    event type, element key, payload, element lookup, and the first that
    fails decides the answer whatever the later ones would say. *)
Theorem validation_order (now : Z) (body : value) (d : list (string * value))
    (db : database) :
  py_or body (VDict []) = VDict d ->
  (fails db d CheckEventType = true ->
   fst (create_event now body (Some db)) = Json 400 (error "invalid event_type"))
  /\ (fails db d CheckEventType = false ->
      fails db d CheckElementKey = true ->
      fst (create_event now body (Some db)) = Json 400 (error "element_key required"))
  /\ (fails db d CheckEventType = false ->
      fails db d CheckElementKey = false ->
      fails db d CheckPayload = true ->
      fst (create_event now body (Some db))
      = Json 400 (error "payload required for text_submit"))
  /\ (fails db d CheckEventType = false ->
      fails db d CheckElementKey = false ->
      fails db d CheckPayload = false ->
      fails db d CheckElementExists = true ->
      fst (create_event now body (Some db)) = Json 400 (error "unknown element_key")).
Proof.
  intro Hd.
  assert (Hfirst : forall c rest, failed_checks db d = c :: rest ->
            fst (create_event now body (Some db)) = Json 400 (error (message c))).
  { intros c rest Hf. now rewrite (create_event_first_failure now body d db c rest Hd Hf). }
  unfold failed_checks, all_checks in Hfirst. cbn [filter] in Hfirst.
  repeat split.
  - intros E1. rewrite E1 in Hfirst. now apply (Hfirst CheckEventType _ eq_refl).
  - intros E1 E2. rewrite E1, E2 in Hfirst. now apply (Hfirst CheckElementKey _ eq_refl).
  - intros E1 E2 E3. rewrite E1, E2, E3 in Hfirst.
    now apply (Hfirst CheckPayload _ eq_refl).
  - intros E1 E2 E3 E4. rewrite E1, E2, E3, E4 in Hfirst.
    now apply (Hfirst CheckElementExists _ eq_refl).
Qed.

(** A bad event type together with a missing element key: the answer is
    the one of the event type. *)
Lemma validation_order_witness :
  fails seeded_db [("event_type", VStr "hover")] CheckEventType = true
  /\ fails seeded_db [("event_type", VStr "hover")] CheckElementKey = true
  /\ fst (create_event 1000 (VDict [("event_type", VStr "hover")]) (Some seeded_db))
     = Json 400 (error "invalid event_type").
Proof.
  split; [reflexivity|]. split; [reflexivity|].
  apply (proj1 (validation_order 1000 (VDict [("event_type", VStr "hover")])
                  [("event_type", VStr "hover")] seeded_db eq_refl)).
  reflexivity.
Defined.

(** C5. After a [POST /events] answered 201, with a string for
    element_key and a string or nothing for payload, the id of the
    answer is the id of exactly one row of [events]; that row holds the
    submitted event_type, the submitted payload as it was given, the id
    of the element whose key was submitted, and the time [now], which is
    also the created_at of the answer. *)
Theorem create_event_round_trip (now : Z) (d : list (string * value)) (db : database)
    (b : value) (k : string) :
  fst (create_event now (VDict d) (Some db)) = Json 201 b ->
  dict_get d "element_key" = VStr k ->
  optional_string (dict_get d "payload") ->
  exists db' e u,
    snd (create_event now (VDict d) (Some db)) = Some db' /\
    get b "id" = Ok (VInt (ev_id e)) /\
    filter (fun x => ev_id x =? ev_id e) (events db') = [e] /\
    VStr (ev_event_type e) = dict_get d "event_type" /\
    payload_value (ev_payload e) = dict_get d "payload" /\
    In u (ui_elements db) /\ ue_key u = k /\ ev_ui_element_id e = ue_id u /\
    ev_created_at e = now /\
    get b "created_at" = Ok (VInt now).
Proof.
  intros H201 Hkey Hopt.
  destruct (create_event_cases now (VDict d) db) as [Hr|Ha].
  - exfalso. inversion Hr as [d0 c rest Hd Hf Heq|x Heq];
      rewrite <- Heq in H201; discriminate.
  - inversion Ha as [d0 et k0 p u u' Hd Het Hin Htr Hk Hrow Hbl Hp Hu' Heq].
    rewrite py_or_dict in Hd. injection Hd as <-.
    rewrite <- Heq in H201. cbn [fst] in H201. injection H201 as <-.
    rewrite Hkey in Hk. cbn [adapt] in Hk. injection Hk as <-.
    apply key_lookup_inv in Hrow as [Hu Hku].
    destruct (optional_string_column _ Hopt) as (p' & Hp' & Hcol).
    rewrite Hp in Hp'. injection Hp' as <-.
    exists (add_event db (new_event db et (ue_id u) (payload_column p) now)),
           (new_event db et (ue_id u) (payload_column p) now), u.
    repeat split; try reflexivity; try assumption.
    + unfold add_event. cbn [events]. now apply select_new_event.
    + now rewrite Het.
Qed.

Lemma create_event_round_trip_witness :
  exists db' e u,
    snd (create_event 1000
           (VDict [("element_key", VStr "txt_note"); ("event_type", VStr "text_submit");
                   ("payload", VStr " hi ")]) (Some seeded_db)) = Some db' /\
    get (VDict [ ("id", VInt 1); ("event_type", VStr "text_submit");
                 ("payload", VStr " hi "); ("created_at", VInt 1000);
                 ("element_key", VStr "txt_note"); ("element_label", VStr "Note");
                 ("element_type", VStr "text_input") ]) "id" = Ok (VInt (ev_id e)) /\
    filter (fun x => ev_id x =? ev_id e) (events db') = [e] /\
    VStr (ev_event_type e) = VStr "text_submit" /\
    payload_value (ev_payload e) = VStr " hi " /\
    In u (ui_elements seeded_db) /\ ue_key u = "txt_note" /\
    ev_ui_element_id e = ue_id u /\
    ev_created_at e = 1000 /\
    get (VDict [ ("id", VInt 1); ("event_type", VStr "text_submit");
                 ("payload", VStr " hi "); ("created_at", VInt 1000);
                 ("element_key", VStr "txt_note"); ("element_label", VStr "Note");
                 ("element_type", VStr "text_input") ]) "created_at" = Ok (VInt 1000).
Proof.
  apply (create_event_round_trip 1000
           [("element_key", VStr "txt_note"); ("event_type", VStr "text_submit");
            ("payload", VStr " hi ")] seeded_db
           (VDict [ ("id", VInt 1); ("event_type", VStr "text_submit");
                    ("payload", VStr " hi "); ("created_at", VInt 1000);
                    ("element_key", VStr "txt_note"); ("element_label", VStr "Note");
                    ("element_type", VStr "text_input") ])
           "txt_note").
  - reflexivity.
  - reflexivity.
  - right. exists " hi ". reflexivity.
Defined.

(* ================================================================== *)
(** ** Referential integrity *)
(* ================================================================== *)

(** The handler inserts only with the id its lookup has just found, so
    it keeps the references whole. *)
Lemma create_event_keeps_references (now : Z) (body : value) (db db' : database) :
  references_ok db ->
  snd (create_event now body (Some db)) = Some db' ->
  references_ok db'.
Proof.
  intros Hok Hsnd.
  destruct (create_event_cases now body db) as [Hr|Ha].
  - inversion Hr as [d c rest Hd Hf Heq|x Heq]; rewrite <- Heq in Hsnd;
      cbn [snd] in Hsnd; injection Hsnd as <-; exact Hok.
  - inversion Ha as [d et k p u u' Hd Het Hin Htr Hk Hrow Hbl Hp Hu' Heq].
    rewrite <- Heq in Hsnd. cbn [snd] in Hsnd. injection Hsnd as <-.
    intros e He. unfold add_event in He |- *. cbn [events ui_elements] in *.
    apply in_app_or in He as [He|[<-|[]]].
    + now apply Hok.
    + exists u. split; [|reflexivity].
      unfold rows_with_key in Hrow.
      destruct (filter _ (ui_elements db)) as [|v l] eqn:E; [discriminate|].
      injection Hrow as ->.
      assert (In u (u :: l)) as Hi by now left.
      rewrite <- E in Hi. now apply filter_In in Hi.
Qed.





(* ================================================================== *)
(** ** Initialisation and the catalogue *)
(* ================================================================== *)

(** [init_db] stops at [cur.fetchone()["c"]]: its connection makes
    tuples, which have no column names. The tables exist by then; no row
    has been added. *)
Lemma init_db_raises (st : store) :
  init_db st = (Raise TypeError,
                Some match st with
                     | Some d => d
                     | None => empty_db
                     end).
Proof. destruct st; reflexivity. Qed.

(** On a connection that makes [sqlite3.Row] objects, as [get_db] opens
    it, the same statements seed an empty table and leave one that has
    rows alone. *)
Lemma init_db_on_row_connection_seeds :
  run init_db_on (get_db None)
  = (Ok tt, mk_conn (Some seeded_db) (Some seeded_db) RowObjects false false 4).
Proof. reflexivity. Qed.

Lemma init_db_on_row_connection_keeps (d : database) :
  ui_elements d <> [] ->
  run init_db_on (get_db (Some d))
  = (Ok tt, mk_conn (Some d) (Some d) RowObjects false false 0).
Proof.
  intro Hne. unfold init_db_on, run, bind, execute_create_tables, select_count_ui_elements,
    get_db, connect, lift, row_getitem.
  cbn [view durable row_factory foreign_keys in_txn last_rowid row_kind row_data].
  destruct (ui_elements d) as [|u l]; [contradiction|]. reflexivity.
Qed.

(** C6. [init_db] on a store without tables, and again on what it left:
    both runs raise, and [ui_elements] stays empty. The first start of
    the program is such a run; the next start finds the file and does
    not call [init_db]. *)
Theorem init_db_fresh_store_not_seeded :
  init_db None = (Raise TypeError, Some empty_db) /\
  init_db (snd (init_db None)) = (Raise TypeError, Some empty_db) /\
  ui_elements empty_db = [] /\
  startup None = (Raise TypeError, Some empty_db) /\
  startup (Some empty_db) = (Ok tt, Some empty_db).
Proof. repeat split. Qed.

(** C7. [GET /elements] on what [init_db] leaves of a store without
    tables: an empty array. *)
Theorem list_elements_after_init :
  list_elements (snd (init_db None)) = (Json 200 (VList []), Some empty_db).
Proof. reflexivity. Qed.

(** On the seeded tables [GET /elements] lists the four rows by id. *)
Example list_elements_seeded :
  fst (list_elements (Some seeded_db))
  = Json 200
      (VList
         [ VDict [("id", VInt 1); ("key", VStr "btn_red"); ("type", VStr "button");
                  ("label", VStr "Red Button")];
           VDict [("id", VInt 2); ("key", VStr "btn_blue"); ("type", VStr "button");
                  ("label", VStr "Blue Button")];
           VDict [("id", VInt 3); ("key", VStr "txt_note"); ("type", VStr "text_input");
                  ("label", VStr "Note")];
           VDict [("id", VInt 4); ("key", VStr "txt_idea"); ("type", VStr "text_input");
                  ("label", VStr "Idea")] ]).
Proof. reflexivity. Qed.

(* ================================================================== *)
(** ** An append-only store *)
(* ================================================================== *)

Lemma list_elements_reads (st : store) : snd (list_elements st) = st.
Proof.
  unfold list_elements, respond, run, bind, select_ui_elements, get_db, connect, lift.
  cbn [view durable row_factory].
  destruct st as [d|]; [|reflexivity].
  destruct (map_result _ _); reflexivity.
Qed.

(** C8. No operation changes or removes a row: after any of them the
    rows of [ui_elements] are the ones before, and the rows of [events]
    are the ones before, in place, followed by what was appended. *)
Theorem rows_never_change (op : operation) (st : store) :
  ui_rows (run_operation op st) = ui_rows st
  /\ exists appended, event_rows (run_operation op st) = (event_rows st ++ appended)%list.
Proof.
  destruct op as [|now body| |]; cbn [run_operation].
  - rewrite list_elements_reads. split; [reflexivity|]. exists []. now rewrite app_nil_r.
  - destruct st as [db|].
    + destruct (create_event_cases now body db) as [Hr|Ha].
      * inversion Hr as [d c rest Hd Hf Heq|x Heq]; cbn [snd];
          (split; [reflexivity|]); exists []; now rewrite app_nil_r.
      * inversion Ha as [d et k p u u' Hd Het Hin Htr Hk Hrow Hbl Hp Hu' Heq].
        cbn [snd ui_rows event_rows add_event ui_elements events].
        split; [reflexivity|]. eexists. reflexivity.
    + rewrite create_event_no_tables. split; [reflexivity|]. exists []. reflexivity.
  - split; [reflexivity|]. exists []. now rewrite app_nil_r.
  - rewrite init_db_raises. cbn [snd]. destruct st; cbn [ui_rows event_rows];
      (split; [reflexivity|]); exists []; now rewrite ?app_nil_r.
Qed.

(* ================================================================== *)
(** ** Bodies that are no object *)
(* ================================================================== *)

(** The validations before the lookup do not read the store. *)
Lemma create_event_invalid_event_type (now : Z) (body : value) (d : list (string * value))
    (st : store) :
  py_or body (VDict []) = VDict d ->
  existsb (eq_str (dict_get d "event_type")) event_types = false ->
  create_event now body st = (Json 400 (error "invalid event_type"), st).
Proof.
  intros Hd He. unfold create_event. rewrite Hd. cbn [get].
  now rewrite <- enum_orb, He.
Qed.

(** An array for a body: [data.get] raises. *)
Lemma create_event_array_body :
  fst (create_event 1000 (VList [VInt 1]) (Some seeded_db)) = ServerError AttributeError
  /\ fst (create_event 1000 (VList [VInt 1]) (Some seeded_db))
     <> Json 400 (error "invalid event_type").
Proof. split; [reflexivity|discriminate]. Qed.

(** C9, amended. A body that is absent or does not parse ([None]), that
    is a JSON value Python takes for false, or that is an object whose
    event_type is missing or outside the enumeration, is answered 400
    "invalid event_type", and the store is left as it was. *)
Theorem create_event_empty_body (now : Z) (body : value) (st : store) :
  body = VNone \/ truthy body = false
  \/ (exists d, body = VDict d
                /\ existsb (eq_str (dict_get d "event_type")) event_types = false) ->
  create_event now body st = (Json 400 (error "invalid event_type"), st).
Proof.
  intros [->|[Hf|(d & -> & He)]].
  - now apply (create_event_invalid_event_type now VNone []).
  - apply (create_event_invalid_event_type now body []); [|reflexivity].
    unfold py_or. now rewrite Hf.
  - apply (create_event_invalid_event_type now (VDict d) d); [apply py_or_dict|exact He].
Qed.

Lemma create_event_empty_body_witness :
  create_event 1000 VNone (Some seeded_db)
  = (Json 400 (error "invalid event_type"), Some seeded_db)
  /\ create_event 1000 (VInt 0) (Some seeded_db)
     = (Json 400 (error "invalid event_type"), Some seeded_db)
  /\ create_event 1000 (VDict [("element_key", VStr "btn_red")]) (Some seeded_db)
     = (Json 400 (error "invalid event_type"), Some seeded_db).
Proof.
  split; [|split].
  - apply (create_event_empty_body 1000 VNone (Some seeded_db)). left. reflexivity.
  - apply (create_event_empty_body 1000 (VInt 0) (Some seeded_db)). right. left. reflexivity.
  - apply (create_event_empty_body 1000 (VDict [("element_key", VStr "btn_red")])
             (Some seeded_db)).
    right. right. exists [("element_key", VStr "btn_red")]. split; reflexivity.
Defined.

(* ================================================================== *)
(** ** Payloads that are no string *)
(* ================================================================== *)

(** A text_submit with the number 5 for payload: the answer and the row
    carry the string "5". *)
Lemma text_submit_number_payload :
  dict_get [("element_key", VStr "txt_note"); ("event_type", VStr "text_submit");
            ("payload", VInt 5)] "payload" = VInt 5
  /\ create_event 1000
       (VDict [("element_key", VStr "txt_note"); ("event_type", VStr "text_submit");
               ("payload", VInt 5)]) (Some seeded_db)
     = (Json 201
          (VDict [ ("id", VInt 1); ("event_type", VStr "text_submit");
                   ("payload", VStr "5"); ("created_at", VInt 1000);
                   ("element_key", VStr "txt_note"); ("element_label", VStr "Note");
                   ("element_type", VStr "text_input") ]),
        Some (add_event seeded_db (mk_event 1 "text_submit" 3 (Some "5") 1000)))
  /\ VStr "5" <> VInt 5.
Proof. split; [reflexivity|]. split; [reflexivity|discriminate]. Qed.

Lemma message_payload (c : check) :
  error (message c) = error "payload required for text_submit" -> c = CheckPayload.
Proof. destruct c; cbn [message]; intro H; try discriminate H; reflexivity. Qed.

(** C10, amended. For a text_submit whose element_key names a row [u]:
    a payload Python takes for false is rejected with "payload required
    for text_submit"; a payload it takes for true and whose rendering is
    not blank is never rejected with that message; and a bool or an
    integer of 64 bits that passes is stored, and returned, as its text. *)
Theorem text_submit_payload_values (now : Z) (d : list (string * value)) (db : database)
    (k : string) (u : ui_element) :
  schema_ok db ->
  dict_get d "event_type" = VStr "text_submit" ->
  dict_get d "element_key" = VStr k -> k <> "" ->
  In u (ui_elements db) -> ue_key u = k ->
  (truthy (dict_get d "payload") = false ->
   create_event now (VDict d) (Some db)
   = (Json 400 (error "payload required for text_submit"), Some db))
  /\ (truthy (dict_get d "payload") = true ->
      strip (str (dict_get d "payload")) <> "" ->
      fst (create_event now (VDict d) (Some db))
      <> Json 400 (error "payload required for text_submit"))
  /\ (forall t, truthy (dict_get d "payload") = true ->
      text_form (dict_get d "payload") = Some t ->
      exists e,
        create_event now (VDict d) (Some db)
        = (Json 201 (VDict (event_items (e, u))), Some (add_event db e))
        /\ ev_payload e = Some t
        /\ dict_get (event_items (e, u)) "payload" = VStr t).
Proof.
  intros Hs Het Hkey Hne Hu Hk.
  assert (Htr : truthy (dict_get d "element_key") = true).
  { rewrite Hkey. cbn [truthy]. now apply negb_true_iff, String.eqb_neq. }
  assert (H1 : fails db d CheckEventType = false) by (cbn [fails]; now rewrite Het).
  assert (H2 : fails db d CheckElementKey = false) by (cbn [fails]; now rewrite Htr).
  repeat split.
  - intro Hf.
    apply (create_event_first_failure now (VDict d) d db CheckPayload
             (filter (fails db d) [CheckElementExists]) (py_or_dict d)).
    unfold failed_checks, all_checks. cbn [filter]. rewrite H1, H2.
    cbn [fails]. unfold blank. now rewrite Het, Hf.
  - intros Ht Hstr Hresp.
    assert (H3 : fails db d CheckPayload = false).
    { cbn [fails]. unfold blank. rewrite Het, Ht. cbn [eq_str negb orb].
      rewrite String.eqb_refl. cbn [andb]. now apply String.eqb_neq. }
    destruct (create_event_cases now (VDict d) db) as [Hr|Ha].
    + inversion Hr as [d0 c rest Hd Hf Heq|x Heq]; rewrite <- Heq in Hresp;
        cbn [fst] in Hresp; [|discriminate].
      rewrite py_or_dict in Hd. injection Hd as <-.
      injection Hresp as Hmsg.
      assert (c = CheckPayload) as -> by (apply message_payload; now rewrite Hmsg).
      assert (In CheckPayload (failed_checks db d)) as Hin by (rewrite Hf; now left).
      apply filter_In in Hin as [_ Hin]. rewrite H3 in Hin. discriminate.
    + inversion Ha as [d0 et k0 p u0 u' Hd Het0 Hin Htr0 Hk0 Hrow Hbl Hp Hu' Heq].
      rewrite <- Heq in Hresp. discriminate.
  - intros t Ht Htext. unfold text_form in Htext.
    destruct (adapt (dict_get d "payload")) as [[|z|s]|x] eqn:Hp; try discriminate.
    injection Htext as <-.
    assert (Hblank : blank (dict_get d "payload") = false).
    { apply truthy_not_blank; [exact Ht|]. intros s E. rewrite E in Hp. discriminate. }
    destruct (create_event_inserts now (VDict d) d db "text_submit" (SText k) (SInteger z) u
                (py_or_dict d) Het eq_refl Htr) as (u' & Hu' & Heq).
    + now rewrite Hkey.
    + rewrite <- Hk. now apply key_lookup.
    + intros _. exact Hblank.
    + exact Hp.
    + rewrite (rows_with_id_unique db u Hs Hu) in Hu'. injection Hu' as <-.
      eexists. split; [exact Heq|]. split; reflexivity.
Qed.

Lemma text_submit_payload_values_witness :
  exists e,
    create_event 1000
      (VDict [("element_key", VStr "txt_note"); ("event_type", VStr "text_submit");
              ("payload", VBool true)]) (Some seeded_db)
    = (Json 201 (VDict (event_items (e, mk_ui_element 3 "txt_note" "text_input" "Note"))),
       Some (add_event seeded_db e))
    /\ ev_payload e = Some "1"
    /\ dict_get (event_items (e, mk_ui_element 3 "txt_note" "text_input" "Note")) "payload"
       = VStr "1".
Proof.
  destruct (text_submit_payload_values 1000
              [("element_key", VStr "txt_note"); ("event_type", VStr "text_submit");
               ("payload", VBool true)] seeded_db "txt_note"
              (mk_ui_element 3 "txt_note" "text_input" "Note")) as (_ & _ & H).
  - concrete_schema.
  - reflexivity.
  - reflexivity.
  - discriminate.
  - right. right. left. reflexivity.
  - reflexivity.
  - apply (H "1"); reflexivity.
Defined.

(* ================================================================== *)
(** ** The catalogue in order *)
(* ================================================================== *)

Lemma insert_by_id_perm (u : ui_element) (l : list ui_element) :
  Permutation (insert_by_id u l) (u :: l).
Proof.
  induction l as [|v l IH]; cbn [insert_by_id]; [reflexivity|].
  destruct (ue_id u <=? ue_id v); [reflexivity|].
  rewrite IH. apply perm_swap.
Qed.

Lemma order_by_id_perm (l : list ui_element) : Permutation (order_by_id l) l.
Proof.
  induction l as [|u l IH]; [reflexivity|].
  unfold order_by_id in *. cbn [fold_right].
  rewrite insert_by_id_perm. now constructor.
Qed.

Lemma insert_by_id_hd (u v : ui_element) (l : list ui_element) :
  id_le v u -> HdRel id_le v l -> HdRel id_le v (insert_by_id u l).
Proof.
  intros Hvu Hl. destruct l as [|w l]; cbn [insert_by_id]; [now constructor|].
  destruct (ue_id u <=? ue_id w); constructor; [exact Hvu|].
  now inversion Hl.
Qed.

Lemma insert_by_id_sorted (u : ui_element) (l : list ui_element) :
  Sorted id_le l -> Sorted id_le (insert_by_id u l).
Proof.
  induction l as [|v l IH]; intro Hs; cbn [insert_by_id].
  - repeat constructor.
  - inversion Hs as [|? ? Hl Hhd]; subst.
    destruct (Z.leb_spec (ue_id u) (ue_id v)) as [Hle|Hgt].
    + constructor; [exact Hs|]. now constructor.
    + constructor; [now apply IH|].
      apply insert_by_id_hd; [unfold id_le; lia|exact Hhd].
Qed.

Lemma order_by_id_sorted (l : list ui_element) : Sorted id_le (order_by_id l).
Proof.
  induction l as [|u l IH]; [constructor|].
  unfold order_by_id in *. cbn [fold_right]. now apply insert_by_id_sorted.
Qed.

Lemma dicts_of_rows (rows : list ui_element) :
  map_result (dict_of_row element_items) (map (mk_row RowObjects) rows)
  = Ok (map (fun u => VDict (element_items u)) rows).
Proof.
  induction rows as [|u rows IH]; [reflexivity|].
  cbn [map map_result]. rewrite IH. reflexivity.
Qed.

Lemma list_elements_answer (db : database) :
  list_elements (Some db)
  = (Json 200 (VList (map (fun u => VDict (element_items u)) (order_by_id (ui_elements db)))),
     Some db).
Proof.
  unfold list_elements, respond, run, bind, select_ui_elements, get_db, connect, lift.
  cbn [view durable row_factory]. now rewrite dicts_of_rows.
Qed.

(** X1. On a store with tables, [GET /elements] answers 200 with one
    object {id, key, type, label} per row of [ui_elements], every row
    once, by ascending id, and leaves the store as it was. *)
Theorem list_elements_sorted (db : database) :
  exists rows,
    list_elements (Some db)
    = (Json 200 (VList (map (fun u => VDict (element_items u)) rows)), Some db)
    /\ Permutation rows (ui_elements db)
    /\ Sorted id_le rows.
Proof.
  exists (order_by_id (ui_elements db)). split; [apply list_elements_answer|].
  split; [apply order_by_id_perm|apply order_by_id_sorted].
Qed.

Lemma created_inv (now : Z) (body : value) (db : database) :
  created (fst (create_event now body (Some db))) = true ->
  accepted now body db (create_event now body (Some db)).
Proof.
  intro Hc. destruct (create_event_cases now body db) as [Hr|Ha]; [|exact Ha].
  inversion Hr as [d c rest Hd Hf Heq|x Heq]; rewrite <- Heq in Hc; discriminate.
Qed.

Lemma create_event_keeps_ui (now : Z) (body : value) (db : database) :
  exists db', snd (create_event now body (Some db)) = Some db'
              /\ ui_elements db' = ui_elements db.
Proof.
  destruct (create_event_cases now body db) as [Hr|Ha].
  - inversion Hr as [d c rest Hd Hf Heq|x Heq]; exists db; split; reflexivity.
  - inversion Ha as [d et k p u u' Hd Het Hin Htr Hk Hrow Hbl Hp Hu' Heq].
    eexists. split; reflexivity.
Qed.

(** X2. A [POST /events], whatever its body and its answer, does not
    change what [GET /elements] answers. *)
Theorem create_event_keeps_catalogue (now : Z) (body : value) (st : store) :
  fst (list_elements (snd (create_event now body st))) = fst (list_elements st).
Proof.
  destruct st as [db|].
  - destruct (create_event_keeps_ui now body db) as (db' & -> & Hui).
    now rewrite !list_elements_answer, Hui.
  - now rewrite create_event_no_tables.
Qed.

(* ================================================================== *)
(** ** Bodies, keys and payloads of other types *)
(* ================================================================== *)

(** X3. A body that parses to a JSON value Python takes for true and
    that is no object (a non-empty array or string, a non-zero number,
    true) ends the request in an AttributeError, on any store, which is
    left as it was. *)
Theorem create_event_non_object_body (now : Z) (body : value) (st : store) :
  truthy body = true ->
  (forall d, body <> VDict d) ->
  create_event now body st = (ServerError AttributeError, st).
Proof.
  intros Ht Hd. unfold create_event, py_or. rewrite Ht.
  destruct body as [| | | | |d]; try reflexivity. now contradiction (Hd d).
Qed.

Lemma create_event_non_object_body_witness :
  create_event 1000 (VStr "click") (Some seeded_db)
  = (ServerError AttributeError, Some seeded_db).
Proof.
  apply (create_event_non_object_body 1000 (VStr "click") (Some seeded_db)).
  - reflexivity.
  - discriminate.
Defined.

(** X4. [POST /events] reads three fields of the body object and nothing
    else: two objects that agree on element_key, event_type and payload
    get the same answer and leave the same store. *)
Theorem create_event_reads_three_fields (now : Z) (d d' : list (string * value))
    (st : store) :
  dict_get d "element_key" = dict_get d' "element_key" ->
  dict_get d "event_type" = dict_get d' "event_type" ->
  dict_get d "payload" = dict_get d' "payload" ->
  create_event now (VDict d) st = create_event now (VDict d') st.
Proof.
  intros Hk He Hp. unfold create_event. rewrite !py_or_dict. cbn [get].
  now rewrite Hk, He, Hp.
Qed.

Lemma create_event_reads_three_fields_witness :
  create_event 1000
    (VDict [("element_key", VStr "btn_red"); ("event_type", VStr "click")]) (Some seeded_db)
  = create_event 1000
      (VDict [("user", VStr "ann"); ("event_type", VStr "click"); ("id", VInt 7);
              ("element_key", VStr "btn_red"); ("created_at", VInt 1)]) (Some seeded_db).
Proof.
  apply (create_event_reads_three_fields 1000
           [("element_key", VStr "btn_red"); ("event_type", VStr "click")]
           [("user", VStr "ann"); ("event_type", VStr "click"); ("id", VInt 7);
            ("element_key", VStr "btn_red"); ("created_at", VInt 1)] (Some seeded_db));
    reflexivity.
Defined.

(** The request of a body object that passes the first three
    validations goes on to the lookup. *)
Lemma create_event_validated (now : Z) (d : list (string * value)) (st : store)
    (et : string) :
  dict_get d "event_type" = VStr et ->
  in_list et event_types = true ->
  truthy (dict_get d "element_key") = true ->
  (et = "text_submit" -> blank (dict_get d "payload") = false) ->
  create_event now (VDict d) st
  = respond
      (row <- select_id_by_key (dict_get d "element_key") ;;
       match row with
       | None => ret (Json 400 (error "unknown element_key"))
       | Some r =>
           id <- lift (row_getitem r ue_id) ;;
           createEvent (VStr et) id (dict_get d "payload") now
       end) (get_db st).
Proof.
  intros Het Hin Htr Hbl. unfold create_event. rewrite py_or_dict. cbn [get].
  rewrite Het, <- enum_orb.
  change (existsb (eq_str (VStr et)) event_types) with (in_list et event_types).
  rewrite Hin, Htr, py_and_blank, negb_involutive. cbn [negb eq_str].
  replace ((et =? "text_submit")%string && blank (dict_get d "payload")) with false;
    [reflexivity|].
  destruct (String.eqb_spec et "text_submit") as [E|E]; [|reflexivity].
  now rewrite (Hbl E).
Qed.

(** The lookup stops at a key that does not bind. *)
Lemma unbindable_key_raises (now : Z) (d : list (string * value)) (db : database)
    (et : string) (x : exn) :
  dict_get d "event_type" = VStr et ->
  in_list et event_types = true ->
  truthy (dict_get d "element_key") = true ->
  (et = "text_submit" -> blank (dict_get d "payload") = false) ->
  adapt (dict_get d "element_key") = Raise x ->
  create_event now (VDict d) (Some db) = (ServerError x, Some db).
Proof.
  intros Het Hin Htr Hbl Hk.
  rewrite (create_event_validated now d (Some db) et Het Hin Htr Hbl).
  unfold respond, run, bind, select_id_by_key. now rewrite Hk.
Qed.

(** X5. An element_key [sqlite3] cannot bind (an array, an object, an
    integer outside 64 bits), in a request that passes the first three
    validations, ends the request in the exception of the binding; the
    store is left as it was. *)
Theorem create_event_unbindable_key (now : Z) (d : list (string * value)) (db : database)
    (et : string) (x : exn) :
  dict_get d "event_type" = VStr et ->
  in_list et event_types = true ->
  truthy (dict_get d "element_key") = true ->
  (et = "text_submit" -> blank (dict_get d "payload") = false) ->
  adapt (dict_get d "element_key") = Raise x ->
  create_event now (VDict d) (Some db) = (ServerError x, Some db).
Proof. exact (unbindable_key_raises now d db et x). Qed.

Lemma create_event_unbindable_key_witness :
  create_event 1000
    (VDict [("element_key", VList [VStr "btn_red"]); ("event_type", VStr "click")])
    (Some seeded_db)
  = (ServerError BindError, Some seeded_db).
Proof.
  apply (create_event_unbindable_key 1000
           [("element_key", VList [VStr "btn_red"]); ("event_type", VStr "click")]
           seeded_db "click" BindError).
  - reflexivity.
  - reflexivity.
  - reflexivity.
  - discriminate.
  - reflexivity.
Defined.

(** The insert stops at a payload that does not bind. *)
Lemma unbindable_payload_raises (now : Z) (d : list (string * value))
    (db : database) (et : string) (k : sqlval) (u : ui_element) (x : exn) :
  dict_get d "event_type" = VStr et ->
  in_list et event_types = true ->
  truthy (dict_get d "element_key") = true ->
  (et = "text_submit" -> blank (dict_get d "payload") = false) ->
  adapt (dict_get d "element_key") = Ok k ->
  hd_error (rows_with_key db k) = Some u ->
  adapt (dict_get d "payload") = Raise x ->
  create_event now (VDict d) (Some db) = (ServerError x, Some db).
Proof.
  intros Het Hin Htr Hbl Hk Hrow Hp.
  rewrite (create_event_validated now d (Some db) et Het Hin Htr Hbl).
  unfold respond, run, bind, select_id_by_key, get_db, connect.
  cbn [view durable row_factory foreign_keys in_txn last_rowid].
  rewrite Hk, Hrow. cbn [option_map].
  unfold lift, row_getitem. cbn [row_kind row_data].
  pose proof (createEvent_unbound (mk_conn (Some db) (Some db) RowObjects false false 0)
                db et (ue_id u) _ x now eq_refl Hp) as Hrun.
  unfold run in Hrun. now rewrite Hrun.
Qed.

(** X6. A payload [sqlite3] cannot bind, in a request that passes the
    validations and whose key finds a row, ends the request in the
    exception of the binding, and no event is inserted. *)
Theorem create_event_unbindable_payload (now : Z) (d : list (string * value))
    (db : database) (et : string) (k : sqlval) (u : ui_element) (x : exn) :
  dict_get d "event_type" = VStr et ->
  in_list et event_types = true ->
  truthy (dict_get d "element_key") = true ->
  (et = "text_submit" -> blank (dict_get d "payload") = false) ->
  adapt (dict_get d "element_key") = Ok k ->
  hd_error (rows_with_key db k) = Some u ->
  adapt (dict_get d "payload") = Raise x ->
  create_event now (VDict d) (Some db) = (ServerError x, Some db).
Proof. exact (unbindable_payload_raises now d db et k u x). Qed.

Lemma create_event_unbindable_payload_witness :
  create_event 1000
    (VDict [("element_key", VStr "txt_note"); ("event_type", VStr "text_submit");
            ("payload", VDict [("text", VStr "hi")])])
    (Some seeded_db)
  = (ServerError BindError, Some seeded_db).
Proof.
  apply (create_event_unbindable_payload 1000
           [("element_key", VStr "txt_note"); ("event_type", VStr "text_submit");
            ("payload", VDict [("text", VStr "hi")])]
           seeded_db "text_submit" (SText "txt_note")
           (mk_ui_element 3 "txt_note" "text_input" "Note") BindError).
  - reflexivity.
  - reflexivity.
  - reflexivity.
  - reflexivity.
  - reflexivity.
  - reflexivity.
  - reflexivity.
Defined.

Lemma adapt_int64 (z : Z) : int64 z -> adapt (VInt z) = Ok (SInteger z).
Proof.
  intros [Hlo Hhi]. cbn [adapt].
  destruct (Z.leb_spec (- 2 ^ 63) z); [|lia].
  destruct (Z.ltb_spec z (2 ^ 63)); [reflexivity|lia].
Qed.

Lemma adapt_not_int64 (z : Z) : ~ int64 z -> adapt (VInt z) = Raise OverflowError.
Proof.
  intro H. cbn [adapt].
  destruct (Z.leb_spec (- 2 ^ 63) z); [|reflexivity].
  destruct (Z.ltb_spec z (2 ^ 63)); [|reflexivity].
  exfalso. apply H. split; assumption.
Qed.

(** X7. The bounds of an integer payload: a click on an existing element
    with the integer [z] for payload is answered 201, the payload kept
    as the decimal text of [z], when [z] fits 64 bits; outside them the
    request ends in an OverflowError and nothing is inserted. *)
Theorem click_integer_payload_bounds (now : Z) (d : list (string * value)) (db : database)
    (k : string) (u : ui_element) (z : Z) :
  schema_ok db ->
  dict_get d "event_type" = VStr "click" ->
  dict_get d "element_key" = VStr k -> k <> "" ->
  In u (ui_elements db) -> ue_key u = k ->
  dict_get d "payload" = VInt z ->
  (int64 z ->
   exists e,
     create_event now (VDict d) (Some db)
     = (Json 201 (VDict (event_items (e, u))), Some (add_event db e))
     /\ ev_payload e = Some (str_int z))
  /\ (~ int64 z ->
      create_event now (VDict d) (Some db) = (ServerError OverflowError, Some db)).
Proof.
  intros Hs Het Hkey Hne Hu Hk Hp.
  assert (Htr : truthy (dict_get d "element_key") = true).
  { rewrite Hkey. cbn [truthy]. now apply negb_true_iff, String.eqb_neq. }
  assert (Hrow : hd_error (rows_with_key db (SText k)) = Some u).
  { rewrite <- Hk. now apply key_lookup. }
  assert (Hbl : "click" = "text_submit" -> blank (dict_get d "payload") = false)
    by discriminate.
  split; intro Hz.
  - destruct (create_event_inserts now (VDict d) d db "click" (SText k) (SInteger z) u
                (py_or_dict d) Het eq_refl Htr) as (u' & Hu' & Heq).
    + now rewrite Hkey.
    + exact Hrow.
    + exact Hbl.
    + rewrite Hp. now apply adapt_int64.
    + rewrite (rows_with_id_unique db u Hs Hu) in Hu'. injection Hu' as <-.
      eexists. split; [exact Heq|reflexivity].
  - apply (unbindable_payload_raises now d db "click" (SText k) u OverflowError
             Het eq_refl Htr Hbl).
    + now rewrite Hkey.
    + exact Hrow.
    + rewrite Hp. now apply adapt_not_int64.
Qed.

Lemma click_integer_payload_bounds_witness :
  (exists e,
     create_event 1000
       (VDict [("element_key", VStr "btn_red"); ("event_type", VStr "click");
               ("payload", VInt (2 ^ 63 - 1))]) (Some seeded_db)
     = (Json 201 (VDict (event_items (e, mk_ui_element 1 "btn_red" "button" "Red Button"))),
        Some (add_event seeded_db e))
     /\ ev_payload e = Some "9223372036854775807")
  /\ create_event 1000
       (VDict [("element_key", VStr "btn_red"); ("event_type", VStr "click");
               ("payload", VInt (2 ^ 63))]) (Some seeded_db)
     = (ServerError OverflowError, Some seeded_db).
Proof.
  split.
  - apply (click_integer_payload_bounds 1000
             [("element_key", VStr "btn_red"); ("event_type", VStr "click");
              ("payload", VInt (2 ^ 63 - 1))] seeded_db "btn_red"
             (mk_ui_element 1 "btn_red" "button" "Red Button") (2 ^ 63 - 1)).
    + concrete_schema.
    + reflexivity.
    + reflexivity.
    + discriminate.
    + left. reflexivity.
    + reflexivity.
    + reflexivity.
    + unfold int64. lia.
  - apply (click_integer_payload_bounds 1000
             [("element_key", VStr "btn_red"); ("event_type", VStr "click");
              ("payload", VInt (2 ^ 63))] seeded_db "btn_red"
             (mk_ui_element 1 "btn_red" "button" "Red Button") (2 ^ 63)).
    + concrete_schema.
    + reflexivity.
    + reflexivity.
    + discriminate.
    + left. reflexivity.
    + reflexivity.
    + reflexivity.
    + unfold int64. lia.
Defined.

Lemma str_int_not_empty (z : Z) : str_int z <> "".
Proof.
  destruct (str_int_head z) as (c & s & E & _). rewrite E. discriminate.
Qed.

(** X8. An integer element_key is looked up as its decimal text: with a
    non-zero integer of 64 bits for element_key the request has the
    answer and the effect of the request with that integer written as a
    string. *)
Theorem create_event_integer_key (now : Z) (z : Z) (fields : list (string * value))
    (db : database) :
  z <> 0 -> int64 z ->
  create_event now (VDict (("element_key", VInt z) :: fields)) (Some db)
  = create_event now (VDict (("element_key", VStr (str_int z)) :: fields)) (Some db).
Proof.
  intros Hz Hint. unfold create_event.
  rewrite !py_or_dict. cbn [get dict_get String.eqb Ascii.eqb Bool.eqb].
  assert (Ht1 : truthy (VInt z) = true)
    by (cbn [truthy]; now apply negb_true_iff, Z.eqb_neq).
  assert (Ht2 : truthy (VStr (str_int z)) = true).
  { cbn [truthy]. apply negb_true_iff, String.eqb_neq, str_int_not_empty. }
  rewrite Ht1, Ht2.
  destruct (negb _); [reflexivity|]. cbn [negb].
  destruct (_ && _); [reflexivity|].
  unfold respond, run, bind, select_id_by_key.
  rewrite (adapt_int64 z Hint). reflexivity.
Qed.

Lemma create_event_integer_key_witness :
  create_event 1000 (VDict [("element_key", VInt (-5)); ("event_type", VStr "click")])
    (Some (mk_database [mk_ui_element 1 "-5" "button" "Minus five"] 1 [] 0))
  = create_event 1000 (VDict [("element_key", VStr "-5"); ("event_type", VStr "click")])
      (Some (mk_database [mk_ui_element 1 "-5" "button" "Minus five"] 1 [] 0)).
Proof.
  apply (create_event_integer_key 1000 (-5) [("event_type", VStr "click")]
           (mk_database [mk_ui_element 1 "-5" "button" "Minus five"] 1 [] 0)).
  - discriminate.
  - unfold int64. lia.
Defined.

(* ================================================================== *)
(** ** Blank payloads *)
(* ================================================================== *)

Lemma lstrip_all_space (s : string) : all_space s = true -> lstrip s = "".
Proof.
  induction s as [|c s IH]; [reflexivity|].
  cbn [all_space lstrip]. intro H. apply andb_true_iff in H as [Hc Hs].
  rewrite Hc. now apply IH.
Qed.

(** What [lstrip] leaves is empty or starts with a character that is no
    whitespace; it is empty only for a string of whitespace. *)
Lemma lstrip_head (s : string) :
  (lstrip s = "" /\ all_space s = true)
  \/ (exists c r, lstrip s = String c r /\ isspace c = false /\ all_space s = false).
Proof.
  induction s as [|c s IH]; [now left|].
  cbn [lstrip all_space]. destruct (isspace c) eqn:Hc; cbn [andb].
  - exact IH.
  - right. exists c, s. repeat split; assumption.
Qed.

(** A string strips to nothing exactly when it is made of whitespace. *)
Lemma strip_all_space (s : string) : (strip s =? "")%string = all_space s.
Proof.
  unfold strip. destruct (lstrip_head s) as [[-> ->]|(c & r & E & Hc & ->)].
  - reflexivity.
  - rewrite E. apply String.eqb_neq.
    pose proof (strip_head c r Hc) as H. unfold strip in H.
    cbn [lstrip] in H. now rewrite Hc in H.
Qed.

(** X9. A text_submit with a string for payload, in a request whose
    event type and element key pass, is rejected with "payload required
    for text_submit" exactly when the string is made of whitespace only
    (the empty string is): tabs, line ends, the separators 28 to 31, the
    space, NEL and the no-break space. *)
Theorem text_submit_whitespace (now : Z) (d : list (string * value)) (db : database)
    (p : string) :
  dict_get d "event_type" = VStr "text_submit" ->
  truthy (dict_get d "element_key") = true ->
  dict_get d "payload" = VStr p ->
  (all_space p = true <->
   create_event now (VDict d) (Some db)
   = (Json 400 (error "payload required for text_submit"), Some db)).
Proof.
  intros Het Htr Hp.
  assert (H1 : fails db d CheckEventType = false) by (cbn [fails]; now rewrite Het).
  assert (H2 : fails db d CheckElementKey = false) by (cbn [fails]; now rewrite Htr).
  assert (H3 : fails db d CheckPayload = all_space p).
  { cbn [fails]. rewrite Het, Hp, blank_str, strip_all_space. cbn [eq_str].
    now rewrite String.eqb_refl. }
  split.
  - intro Hall.
    apply (create_event_first_failure now (VDict d) d db CheckPayload
             (filter (fails db d) [CheckElementExists]) (py_or_dict d)).
    unfold failed_checks, all_checks. cbn [filter]. now rewrite H1, H2, H3, Hall.
  - intro Hresp. destruct (all_space p) eqn:Hall; [reflexivity|exfalso].
    destruct (create_event_cases now (VDict d) db) as [Hr|Ha].
    + inversion Hr as [d0 c rest Hd Hf Heq|x Heq]; rewrite Hresp in Heq; [|discriminate].
      rewrite py_or_dict in Hd. injection Hd as <-.
      injection Heq as Hmsg.
      assert (c = CheckPayload) as ->.
      { apply message_payload. unfold error. now rewrite Hmsg. }
      assert (In CheckPayload (failed_checks db d)) as Hin by (rewrite Hf; now left).
      apply filter_In in Hin as [_ Hin]. rewrite H3 in Hin. discriminate.
    + inversion Ha as [d0 et k0 p0 u0 u' Hd Het0 Hin Htr0 Hk0 Hrow Hbl Hp0 Hu' Heq].
      rewrite Hresp in Heq. discriminate.
Qed.

Lemma text_submit_whitespace_witness :
  all_space (String (ascii_of_nat 28) (String (ascii_of_nat 9) " ")) = true <->
  create_event 1000
    (VDict [("element_key", VStr "txt_note"); ("event_type", VStr "text_submit");
            ("payload", VStr (String (ascii_of_nat 28) (String (ascii_of_nat 9) " ")))])
    (Some seeded_db)
  = (Json 400 (error "payload required for text_submit"), Some seeded_db).
Proof.
  apply (text_submit_whitespace 1000
           [("element_key", VStr "txt_note"); ("event_type", VStr "text_submit");
            ("payload", VStr (String (ascii_of_nat 28) (String (ascii_of_nat 9) " ")))]
           seeded_db (String (ascii_of_nat 28) (String (ascii_of_nat 9) " "))).
  - reflexivity.
  - reflexivity.
  - reflexivity.
Defined.

(* ================================================================== *)
(** ** What a request writes *)
(* ================================================================== *)

(** X10. [POST /events] writes exactly when it answers 201: then one row
    is appended to [events], with an id above every id of the table and
    with the time of the request, the id counter moves to that id and
    [ui_elements] is as before; with any other answer the store is the
    one the request found. *)
Theorem create_event_writes_when_created (now : Z) (body : value) (db : database) :
  (created (fst (create_event now body (Some db))) = true
   /\ exists e,
        snd (create_event now body (Some db))
        = Some (mk_database (ui_elements db) (ui_seq db) (events db ++ [e]) (ev_id e))
        /\ (forall e0, In e0 (events db) -> ev_id e0 < ev_id e)
        /\ ev_seq db < ev_id e
        /\ ev_created_at e = now)
  \/ (created (fst (create_event now body (Some db))) = false
      /\ snd (create_event now body (Some db)) = Some db).
Proof.
  destruct (create_event_cases now body db) as [Hr|Ha].
  - right. inversion Hr as [d c rest Hd Hf Heq|x Heq]; split; reflexivity.
  - left. inversion Ha as [d et k p u u' Hd Het Hin Htr Hk Hrow Hbl Hp Hu' Heq].
    split; [reflexivity|].
    exists (new_event db et (ue_id u) (payload_column p) now).
    split; [reflexivity|]. cbn [new_event ev_id ev_created_at]. repeat split.
    + intros e0 He0. apply next_rowid_fresh. now apply in_map.
    + unfold next_rowid. lia.
Qed.

Lemma fold_max_nonneg (ids : list Z) : 0 <= fold_right Z.max 0 ids.
Proof. induction ids as [|x ids IH]; cbn [fold_right]; lia. Qed.

Lemma fold_max_app (ids : list Z) (i : Z) :
  fold_right Z.max 0 (ids ++ [i]) = Z.max (fold_right Z.max 0 ids) i.
Proof.
  induction ids as [|x ids IH]; cbn [app fold_right]; [lia|]. rewrite IH. lia.
Qed.

(** After an insert the next id is the one after the id just given. *)
Lemma next_rowid_after_add (db : database) (e : event) :
  ev_id e = next_rowid (map ev_id (events db)) (ev_seq db) ->
  next_rowid (map ev_id (events (add_event db e))) (ev_seq (add_event db e)) = ev_id e + 1.
Proof.
  intro Hid. unfold add_event. cbn [events ev_seq].
  rewrite map_app. cbn [map]. unfold next_rowid at 1. rewrite fold_max_app.
  pose proof (fold_max_nonneg (map ev_id (events db))).
  unfold next_rowid in Hid. lia.
Qed.

Lemma created_answer (now : Z) (body : value) (db : database) (b : value) :
  fst (create_event now body (Some db)) = Json 201 b ->
  exists e,
    snd (create_event now body (Some db)) = Some (add_event db e)
    /\ ev_id e = next_rowid (map ev_id (events db)) (ev_seq db)
    /\ get b "id" = Ok (VInt (ev_id e)).
Proof.
  intro H201.
  assert (Hc : created (fst (create_event now body (Some db))) = true) by now rewrite H201.
  pose proof (created_inv now body db Hc) as Ha.
  inversion Ha as [d et k p u u' Hd Het Hin Htr Hk Hrow Hbl Hp Hu' Heq].
  rewrite <- Heq in H201. cbn [fst] in H201. injection H201 as <-.
  eexists. split; [reflexivity|]. split; reflexivity.
Qed.

(** X11. Two requests answered 201 with no other write between them get
    consecutive ids: the second id is the first plus one. *)
Theorem consecutive_event_ids (now1 now2 : Z) (body1 body2 : value) (db : database)
    (b1 b2 : value) :
  fst (create_event now1 body1 (Some db)) = Json 201 b1 ->
  fst (create_event now2 body2 (snd (create_event now1 body1 (Some db)))) = Json 201 b2 ->
  exists i, get b1 "id" = Ok (VInt i) /\ get b2 "id" = Ok (VInt (i + 1)).
Proof.
  intros H1 H2.
  destruct (created_answer now1 body1 db b1 H1) as (e1 & Hs1 & Hid1 & Hb1).
  rewrite Hs1 in H2.
  destruct (created_answer now2 body2 (add_event db e1) b2 H2) as (e2 & _ & Hid2 & Hb2).
  exists (ev_id e1). split; [exact Hb1|].
  now rewrite Hb2, Hid2, (next_rowid_after_add db e1 Hid1).
Qed.

Lemma consecutive_event_ids_witness :
  exists i,
    get (VDict [ ("id", VInt 1); ("event_type", VStr "click");
                 ("payload", VNone); ("created_at", VInt 1000);
                 ("element_key", VStr "btn_red"); ("element_label", VStr "Red Button");
                 ("element_type", VStr "button") ]) "id" = Ok (VInt i)
    /\ get (VDict [ ("id", VInt 2); ("event_type", VStr "text_submit");
                    ("payload", VStr "hi"); ("created_at", VInt 1001);
                    ("element_key", VStr "txt_idea"); ("element_label", VStr "Idea");
                    ("element_type", VStr "text_input") ]) "id" = Ok (VInt (i + 1)).
Proof.
  apply (consecutive_event_ids 1000 1001
           (VDict [("element_key", VStr "btn_red"); ("event_type", VStr "click")])
           (VDict [("element_key", VStr "txt_idea"); ("event_type", VStr "text_submit");
                   ("payload", VStr "hi")])
           seeded_db).
  - reflexivity.
  - reflexivity.
Defined.

(* ================================================================== *)
(** ** Invariants of the store *)
(* ================================================================== *)

Lemma create_event_keeps_store_ok (now : Z) (body : value) (db db' : database) :
  store_ok db ->
  snd (create_event now body (Some db)) = Some db' ->
  store_ok db'.
Proof.
  intros (Hnd & Hseq & Hty & Href) Hsnd.
  pose proof (create_event_keeps_references now body db db' Href Hsnd) as Href'.
  destruct (create_event_cases now body db) as [Hr|Ha].
  - inversion Hr as [d c rest Hd Hf Heq|x Heq]; rewrite <- Heq in Hsnd;
      cbn [snd] in Hsnd; injection Hsnd as <-; repeat split; assumption.
  - inversion Ha as [d et k p u u' Hd Het Hin Htr Hk Hrow Hbl Hp Hu' Heq].
    rewrite <- Heq in Hsnd. cbn [snd] in Hsnd. injection Hsnd as <-.
    unfold store_ok, add_event. cbn [events ev_seq new_event ev_id].
    split; [|split; [|split]].
    + rewrite map_app. cbn [map ev_id].
      apply (Permutation_NoDup (Permutation_cons_append _ _)).
      constructor; [apply next_rowid_not_in|exact Hnd].
    + apply Forall_app. split.
      * apply Forall_forall. intros e0 He0.
        apply Z.lt_le_incl, next_rowid_fresh. now apply in_map.
      * constructor; [apply Z.le_refl|constructor].
    + apply Forall_app. split; [exact Hty|].
      constructor; [exact Hin|constructor].
    + exact Href'.
Qed.

Lemma run_operation_some (op : operation) (db : database) :
  exists db' appended,
    run_operation op (Some db) = Some db'
    /\ ui_elements db' = ui_elements db
    /\ events db' = (events db ++ appended)%list
    /\ (store_ok db -> store_ok db').
Proof.
  assert (Hsame : forall st, st = Some db ->
            exists db' appended,
              st = Some db'
              /\ ui_elements db' = ui_elements db
              /\ events db' = (events db ++ appended)%list
              /\ (store_ok db -> store_ok db')).
  { intros st ->. exists db, []. rewrite app_nil_r.
    split; [reflexivity|]. split; [reflexivity|]. split; [reflexivity|]. auto. }
  destruct op as [|now body| |]; cbn [run_operation].
  - apply Hsame, list_elements_reads.
  - destruct (create_event_cases now body db) as [Hr|Ha].
    + apply Hsame. inversion Hr as [d c rest Hd Hf Heq|x Heq]; reflexivity.
    + pose proof (create_event_keeps_store_ok now body db) as Hok.
      inversion Ha as [d et k p u u' Hd Het Hin Htr Hk Hrow Hbl Hp Hu' Heq].
      rewrite <- Heq in Hok. cbn [snd] in Hok |- *.
      eexists. eexists. split; [reflexivity|]. split; [reflexivity|].
      split; [reflexivity|]. intro H. now apply Hok.
  - now apply Hsame.
  - apply Hsame. now rewrite init_db_raises.
Qed.

(** X12. Whatever operations run, in whatever order, on a store that
    satisfies the constraints of the [events] table (ids all different
    and none above the counter, event types of the enumeration, every
    event referring to an element), the store they leave satisfies them
    too; [ui_elements] is as before and the old events are still there,
    in place, before the new ones. *)
Theorem operations_keep_store_ok (ops : list operation) (db : database) :
  store_ok db ->
  exists db' appended,
    run_operations ops (Some db) = Some db'
    /\ store_ok db'
    /\ ui_elements db' = ui_elements db
    /\ events db' = (events db ++ appended)%list.
Proof.
  revert db. induction ops as [|op ops IH]; intros db Hok.
  - exists db, []. rewrite app_nil_r.
    split; [reflexivity|]. split; [exact Hok|]. split; reflexivity.
  - destruct (run_operation_some op db) as (db1 & app1 & Hrun & Hui & Hev & Hkeep).
    destruct (IH db1 (Hkeep Hok)) as (db2 & app2 & Hrun2 & Hok2 & Hui2 & Hev2).
    exists db2, (app1 ++ app2)%list.
    unfold run_operations in *. cbn [fold_left]. rewrite Hrun.
    split; [exact Hrun2|]. split; [exact Hok2|].
    split; [now rewrite Hui2|]. now rewrite Hev2, Hev, app_assoc.
Qed.

Lemma operations_keep_store_ok_witness :
  exists db' appended,
    run_operations
      [ OpCreateEvent 1000 (VDict [("element_key", VStr "btn_red"); ("event_type", VStr "click")]);
        OpInitDb;
        OpCreateEvent 1001 (VDict [("element_key", VStr "nope"); ("event_type", VStr "click")]);
        OpListElements ]
      (Some seeded_db) = Some db'
    /\ store_ok db'
    /\ ui_elements db' = ui_elements seeded_db
    /\ events db' = (events seeded_db ++ appended)%list.
Proof.
  apply (operations_keep_store_ok
           [ OpCreateEvent 1000
               (VDict [("element_key", VStr "btn_red"); ("event_type", VStr "click")]);
             OpInitDb;
             OpCreateEvent 1001
               (VDict [("element_key", VStr "nope"); ("event_type", VStr "click")]);
             OpListElements ]
           seeded_db).
  unfold store_ok, references_ok. cbn.
  split; [constructor|]. split; [constructor|]. split; [constructor|].
  intros e [].
Defined.

Lemma create_event_no_tables_answer (now : Z) (body : value) :
  created (fst (create_event now body None)) = false.
Proof.
  unfold create_event.
  destruct (get (py_or body (VDict [])) "element_key"); [|reflexivity].
  destruct (get (py_or body (VDict [])) "event_type"); [|reflexivity].
  destruct (get (py_or body (VDict [])) "payload"); [|reflexivity].
  repeat match goal with |- context [if ?b then _ else _] => destruct b; try reflexivity end.
  all: reflexivity.
Qed.

Lemma create_event_empty_catalogue (now : Z) (body : value) (st : store) :
  ui_rows st = [] ->
  created (fst (create_event now body st)) = false
  /\ snd (create_event now body st) = st.
Proof.
  intro Hui. destruct st as [db|].
  - cbn [ui_rows] in Hui.
    destruct (create_event_cases now body db) as [Hr|Ha].
    + inversion Hr as [d c rest Hd Hf Heq|x Heq]; split; reflexivity.
    + exfalso. inversion Ha as [d et k p u u' Hd Het Hin Htr Hk Hrow Hbl Hp Hu' Heq].
      unfold rows_with_key in Hrow. rewrite Hui in Hrow. discriminate.
  - split; [apply create_event_no_tables_answer|apply create_event_no_tables].
Qed.

Lemma run_operation_no_rows (op : operation) (st : store) :
  no_rows st -> no_rows (run_operation op st).
Proof.
  intros [Hui Hev]. destruct op as [|now body| |]; cbn [run_operation].
  - rewrite list_elements_reads. now split.
  - destruct (create_event_empty_catalogue now body st Hui) as [_ ->]. now split.
  - now split.
  - rewrite init_db_raises. cbn [snd]. destruct st; now split.
Qed.

Lemma run_operations_no_rows (ops : list operation) (st : store) :
  no_rows st -> no_rows (run_operations ops st).
Proof.
  revert st. induction ops as [|op ops IH]; intros st H; [exact H|].
  unfold run_operations in *. cbn [fold_left]. apply IH. now apply run_operation_no_rows.
Qed.

(** X13. Starting without [app.db], whatever requests and calls of
    [init_db] follow one another, both tables stay without rows, and
    every [POST /events] is answered something else than 201: nothing in
    the program ever puts a row in [ui_elements]. *)
Theorem fresh_store_stays_empty (ops : list operation) (now : Z) (body : value) :
  ui_rows (run_operations ops None) = []
  /\ event_rows (run_operations ops None) = []
  /\ created (fst (create_event now body (run_operations ops None))) = false.
Proof.
  destruct (run_operations_no_rows ops None) as [Hui Hev]; [now split|].
  split; [exact Hui|]. split; [exact Hev|].
  now apply create_event_empty_catalogue.
Qed.

(** X14. [init_db] raises a TypeError on every store, at the read of the
    count and so before the seeding; what it leaves are the tables, made
    if they were missing, with the rows they had. At its start the
    program runs it only when [app.db] is missing. *)
Theorem init_db_always_raises (st : store) :
  fst (init_db st) = Raise TypeError
  /\ (exists db, snd (init_db st) = Some db)
  /\ ui_rows (snd (init_db st)) = ui_rows st
  /\ event_rows (snd (init_db st)) = event_rows st
  /\ startup st = match st with
                  | None => (Raise TypeError, Some empty_db)
                  | Some _ => (Ok tt, st)
                  end.
Proof.
  rewrite init_db_raises. cbn [fst snd].
  split; [reflexivity|]. split; [eexists; reflexivity|].
  destruct st as [db|]; repeat split; reflexivity.
Qed.

Lemma adapt_raises (v : value) (x : exn) :
  adapt v = Raise x -> x <> TypeError /\ x <> IntegrityError.
Proof.
  destruct v as [|b|z|s|l|d]; cbn [adapt]; try discriminate.
  - destruct (_ && _); [discriminate|]. intros [= <-]. split; discriminate.
  - intros [= <-]. split; discriminate.
  - intros [= <-]. split; discriminate.
Qed.

Lemma create_event_raised (now : Z) (body : value) (db : database) (x : exn) :
  fst (create_event now body (Some db)) = ServerError x ->
  x <> TypeError /\ x <> IntegrityError.
Proof.
  intro Hx.
  destruct (py_or body (VDict [])) as [| | | | |d] eqn:Hd;
    try (unfold create_event in Hx; rewrite Hd in Hx; cbn [get fst] in Hx;
         injection Hx as <-; split; discriminate).
  destruct (failed_checks db d) as [|c rest] eqn:Hf.
  2:{ rewrite (create_event_first_failure now body d db c rest Hd Hf) in Hx. discriminate. }
  unfold failed_checks, all_checks in Hf. cbn [filter] in Hf.
  destruct (fails db d CheckEventType) eqn:E1; [discriminate|].
  destruct (fails db d CheckElementKey) eqn:E2; [discriminate|].
  destruct (fails db d CheckPayload) eqn:E3; [discriminate|].
  destruct (fails db d CheckElementExists) eqn:E4; [discriminate|].
  cbn [fails] in E1, E2, E3, E4.
  apply negb_false_iff in E1, E2. rewrite enum_orb in E1.
  destruct (eq_str_enum _ E1) as (et & Het & Hin).
  assert (Hblank : et = "text_submit" -> blank (dict_get d "payload") = false).
  { intros ->. rewrite Het in E3. cbn [eq_str] in E3. now rewrite String.eqb_refl in E3. }
  assert (Hbody : create_event now body (Some db) = create_event now (VDict d) (Some db)).
  { unfold create_event. now rewrite Hd, py_or_dict. }
  rewrite Hbody in Hx.
  destruct (adapt (dict_get d "element_key")) as [k|y] eqn:Hk.
  2:{ rewrite (unbindable_key_raises now d db et y Het Hin E2 Hblank Hk) in Hx.
      injection Hx as <-. now apply (adapt_raises _ _ Hk). }
  destruct (hd_error (rows_with_key db k)) as [u|] eqn:Hrow.
  2:{ apply hd_error_nil in Hrow. rewrite Hrow in E4. discriminate. }
  destruct (adapt (dict_get d "payload")) as [p|y] eqn:Hp.
  2:{ rewrite (unbindable_payload_raises now d db et k u y Het Hin E2 Hblank Hk Hrow Hp)
        in Hx.
      injection Hx as <-. now apply (adapt_raises _ _ Hp). }
  destruct (create_event_inserts now (VDict d) d db et k p u (py_or_dict d)
              Het Hin E2 Hk Hrow Hblank Hp) as (u' & _ & Heq).
  rewrite Heq in Hx. discriminate.
Qed.

(** X15. On a store with tables a [POST /events] never ends in a
    TypeError nor in an IntegrityError: what the handler inserts
    satisfies the NOT NULL and CHECK constraints of [events], and the
    read-back always finds the row with its element, so that
    [dict(created)] is never [dict(None)]. *)
Theorem create_event_no_constraint_failure (now : Z) (body : value) (db : database) :
  fst (create_event now body (Some db)) <> ServerError TypeError
  /\ fst (create_event now body (Some db)) <> ServerError IntegrityError.
Proof.
  split; intro Hx; destruct (create_event_raised now body db _ Hx) as [H1 H2];
    [now apply H1|now apply H2].
Qed.

(** X16. Without tables (the file is missing when the request comes)
    [GET /elements] ends in an OperationalError, and so does a
    [POST /events] with a string key that passes the validations made
    before the lookup; neither makes a table. *)
Theorem requests_without_tables (now : Z) (d : list (string * value)) (et k : string) :
  dict_get d "event_type" = VStr et ->
  in_list et event_types = true ->
  dict_get d "element_key" = VStr k -> k <> "" ->
  (et = "text_submit" -> blank (dict_get d "payload") = false) ->
  list_elements None = (ServerError OperationalError, None)
  /\ create_event now (VDict d) None = (ServerError OperationalError, None).
Proof.
  intros Het Hin Hkey Hne Hbl. split; [reflexivity|].
  rewrite (create_event_validated now d None et Het Hin); [|rewrite Hkey|exact Hbl].
  - now rewrite Hkey.
  - cbn [truthy]. now apply negb_true_iff, String.eqb_neq.
Qed.

Lemma requests_without_tables_witness :
  list_elements None = (ServerError OperationalError, None)
  /\ create_event 1000
       (VDict [("element_key", VStr "btn_red"); ("event_type", VStr "click")]) None
     = (ServerError OperationalError, None).
Proof.
  apply (requests_without_tables 1000
           [("element_key", VStr "btn_red"); ("event_type", VStr "click")]
           "click" "btn_red").
  - reflexivity.
  - reflexivity.
  - reflexivity.
  - discriminate.
  - discriminate.
Defined.

(** X17. The store-level [createEvent] on the connection of a request,
    for an event type of the enumeration and a payload that binds:
    whatever element id it is given, the row is inserted and committed;
    the answer is 201 with the row and its element when an element has
    that id, and a TypeError, after the commit, when none has. *)
Theorem createEvent_commits_any_id (db : database) (et : string) (eid : Z)
    (payload : value) (p : sqlval) (now : Z) :
  in_list et event_types = true ->
  adapt payload = Ok p ->
  respond (createEvent (VStr et) eid payload now) (get_db (Some db))
  = (match hd_error (filter (fun u => eid =? ue_id u) (ui_elements db)) with
     | Some u =>
         Json 201 (VDict (event_items (new_event db et eid (payload_column p) now, u)))
     | None => ServerError TypeError
     end,
     Some (add_event db (new_event db et eid (payload_column p) now))).
Proof.
  intros Hin Hp. unfold respond.
  rewrite (createEvent_run (get_db (Some db)) db et eid payload p now
             eq_refl eq_refl eq_refl Hin Hp).
  destruct (hd_error _); reflexivity.
Qed.

Lemma createEvent_commits_any_id_witness :
  respond (createEvent (VStr "text_submit") 7 (VStr "lost") 1000) (get_db (Some seeded_db))
  = (ServerError TypeError,
     Some (add_event seeded_db (new_event seeded_db "text_submit" 7 (Some "lost") 1000))).
Proof.
  apply (createEvent_commits_any_id seeded_db "text_submit" 7 (VStr "lost") (SText "lost") 1000).
  - reflexivity.
  - reflexivity.
Defined.
